(** * pdf_converter.py: a PDF to per-page image converter

    A shallow embedding of [src/pdf_converter.py] and the properties of its
    page pipeline: parallel rendering with per-page failure capture,
    re-ordering by page number, writing of the per-page files and the
    optional zip archive, and the exit status of the command-line entry.

    The rendering library (PyMuPDF), the host's CPU count and the process
    pool of the platform (the worker counts its constructor refuses and the
    order in which it completes its tasks) are outside the program; they are
    parameters of the model.  The file system is a finite map from paths
    to nodes, printed lines are collected in a log, and an exception that the
    program does not catch ends the run with that exception. *)

From Stdlib Require Import ZArith Ascii String List Bool Lia.
From Stdlib Require Import Sorting.Sorted Sorting.Permutation.
From Stdlib Require Import DecimalString DecimalNat DecimalFacts.
From stdpp Require Import base option list strings gmap sorting.

Local Open Scope string_scope.
Local Open Scope list_scope.

(** ** Strings: the few [str] methods the program uses *)

Module Str.

(** [str.lower] and [str.upper] on ASCII letters. *)
Definition lower_ascii (a : ascii) : ascii :=
  let n := nat_of_ascii a in
  if (65 <=? n)%nat && (n <=? 90)%nat then ascii_of_nat (n + 32) else a.

Definition upper_ascii (a : ascii) : ascii :=
  let n := nat_of_ascii a in
  if (97 <=? n)%nat && (n <=? 122)%nat then ascii_of_nat (n - 32) else a.

Fixpoint lower (s : string) : string :=
  match s with
  | EmptyString => EmptyString
  | String a s' => String (lower_ascii a) (lower s')
  end.

Fixpoint upper (s : string) : string :=
  match s with
  | EmptyString => EmptyString
  | String a s' => String (upper_ascii a) (upper s')
  end.

(** [s.rfind(c)]: the index of the last occurrence of [c], counted from
    [pos] for the first character of [s]. *)
Fixpoint rfind_from (c : ascii) (s : string) (pos : nat) : option nat :=
  match s with
  | EmptyString => None
  | String a s' =>
      match rfind_from c s' (S pos) with
      | Some i => Some i
      | None => if Ascii.eqb a c then Some pos else None
      end
  end.

Definition rfind (c : ascii) (s : string) : option nat := rfind_from c s 0.

(** The last character of a string, if any. *)
Fixpoint last_char (s : string) : option ascii :=
  match s with
  | EmptyString => None
  | String a EmptyString => Some a
  | String _ s' => last_char s'
  end.

(** [str(n)] for a non-negative integer. *)
Definition of_nat (n : nat) : string := NilEmpty.string_of_uint (Nat.to_uint n).

(** Reading a decimal numeral back; [None] when a character is not a digit. *)
Definition to_nat (s : string) : option nat :=
  match NilEmpty.uint_of_string s with
  | Some d => Some (Nat.of_uint d)
  | None => None
  end.

Fixpoint zeros (k : nat) : string :=
  match k with
  | O => EmptyString
  | S k' => String "0" (zeros k')
  end.

(** The format specification [0Wd]: pad with zeros on the left up to width
    [w]; a longer numeral is left as it is. *)
Definition zfill (w : nat) (s : string) : string :=
  zeros (w - String.length s) ++ s.

(** Python truthiness of a [str]. *)
Definition truthy (s : string) : bool :=
  match s with
  | EmptyString => false
  | String _ _ => true
  end.

(** A string of ASCII characters only ([s.isascii()]); on these [lower] and
    [upper] above are Python's. *)
Fixpoint is_ascii (s : string) : bool :=
  match s with
  | EmptyString => true
  | String a s' => (nat_of_ascii a <? 128)%nat && is_ascii s'
  end.

End Str.

(** ** Paths ([pathlib.Path]) *)

(** A path is the list of its components; the empty list is the current
    directory (Python's [Path('.')]). *)
Definition path := list string.

Module Path.

(** [p.parent] *)
Definition parent (p : path) : path := removelast p.

(** [p.name] *)
Definition name (p : path) : string := List.last p "".

(** [p / s] *)
Definition join (p : path) (s : string) : path := p ++ [s].

(** [p.stem]: the name without its last suffix.  pathlib takes the suffix
    from the last dot when that dot is neither the first nor the last
    character of the name. *)
Definition stem (p : path) : string :=
  let n := name p in
  match Str.rfind "." n with
  | Some i =>
      if (0 <? i)%nat && (i <? String.length n - 1)%nat
      then String.substring 0 i n else n
  | None => n
  end.

End Path.

Infix "//" := Path.join (at level 40, left associativity).

(** ** The file system *)

Definition bytes := list Byte.byte.

(** A regular file holds raw bytes or is a zip archive, an ordered list of
    members (member name, member content). *)
#[warnings="-register-all"]
Inductive content : Type :=
  | Raw (b : bytes)
  | Zip (members : list (string * content)).

Inductive node : Type :=
  | Dir
  | File (c : content).

Abbreviation FS := (gmap path node).

(** What is at a path; the current directory is always there. *)
Definition node_at (fs : FS) (p : path) : option node :=
  match p with
  | [] => Some Dir
  | _ :: _ => fs !! p
  end.

(** Exceptions the model raises itself.  Errors of the rendering library
    are caught where they occur and only their message [str(e)] is kept. *)
Inductive exn : Type :=
  | FileExistsError (p : path)
  | FileNotFoundError (p : path)
  | NotADirectoryError (p : path)
  | IsADirectoryError (p : path)
  | TypeError
  | ValueError
  | OverflowError.

(** ** Printed lines *)

(** One constructor per [print] call of the source, carrying the values the
    line interpolates (the page number of [MsgPageFailed] is the 1-based
    number the source prints).  Progress bars are not part of the log. *)
Inductive Msg : Type :=
  | MsgFileNotFound (p : path)
  | MsgPdfFile (name : string)
  | MsgNumPages (n : nat)
  | MsgFormat (fmt : string)
  | MsgDpi (dpi : Z)
  | MsgQuality (q : Z)
  | MsgWorkers (w : option Z)
  | MsgOpenFailed (e : string)
  | MsgPageFailed (page_no : nat) (e : string)
  | MsgConverted (count : nat)
  | MsgSavedTo (dir : path)
  | MsgZipStart
  | MsgZipDone (zip : path)
  | MsgKeepDir (dir : path)
  | MsgBadQuality
  | MsgDpiLow
  | MsgDpiHigh.

(** ** Computations: file-system state, printed log, uncaught exception *)

Inductive result (A : Type) : Type :=
  | Ok (a : A)
  | Raised (e : exn).
Arguments Ok {A} a.
Arguments Raised {A} e.

(** Running a computation from a file system gives its result, the file
    system it leaves and the lines it printed. *)
Definition M (A : Type) : Type := FS → result A * FS * list Msg.

#[global] Instance M_ret : MRet M := λ A a fs, (Ok a, fs, []).

#[global] Instance M_bind : MBind M := λ A B k m fs,
  match m fs with
  | (Ok a, fs1, l1) =>
      match k a fs1 with
      | (r, fs2, l2) => (r, fs2, l1 ++ l2)
      end
  | (Raised e, fs1, l1) => (Raised e, fs1, l1)
  end.

Definition raise {A} (e : exn) : M A := λ fs, (Raised e, fs, []).

Definition print (m : Msg) : M unit := λ fs, (Ok tt, fs, [m]).

Definition print_all (l : list Msg) : M unit := λ fs, (Ok tt, fs, l).

Definition get_fs : M FS := λ fs, (Ok fs, fs, []).

Definition put_fs (fs' : FS) : M unit := λ _, (Ok tt, fs', []).

(** *** File-system operations *)

(** [p.exists()] *)
Definition path_exists (p : path) : M bool :=
  fs ← get_fs; mret (bool_decide (is_Some (node_at fs p))).

(** [p.mkdir(exist_ok=True)]: nothing to do when [p] is a directory already;
    an existing file is an error; otherwise the parent must be a directory
    (the call does not pass [parents=True]). *)
Definition mkdir_exist_ok (p : path) : M unit :=
  fs ← get_fs;
  match node_at fs p with
  | Some Dir => mret tt
  | Some (File _) => raise (FileExistsError p)
  | None =>
      match node_at fs (Path.parent p) with
      | Some Dir => put_fs (<[p := Dir]> fs)
      | Some (File _) => raise (NotADirectoryError p)
      | None => raise (FileNotFoundError p)
      end
  end.

(** Opening [p] for writing in binary mode, which creates the file or
    truncates it to [empty]: [open(p, 'wb')] with [empty] no bytes, and
    [ZipFile(p, 'w')] with [empty] an archive without members. *)
Definition open_w (empty : content) (p : path) : M unit :=
  fs ← get_fs;
  match node_at fs p with
  | Some Dir => raise (IsADirectoryError p)
  | _ =>
      match node_at fs (Path.parent p) with
      | Some Dir => put_fs (<[p := File empty]> fs)
      | Some (File _) => raise (NotADirectoryError p)
      | None => raise (FileNotFoundError p)
      end
  end.

(** [f.write(data)] on the file just opened at [p]; [data] is [None] when
    the caller passes Python's [None], which [write] refuses. *)
Definition write_data (p : path) (data : option bytes) : M unit :=
  match data with
  | Some b => fs ← get_fs; put_fs (<[p := File (Raw b)]> fs)
  | None => raise TypeError
  end.

(** ** The rendering library and the process pool *)

(** How a pixmap is encoded: [pix.tobytes("png")] or
    [pix.tobytes("jpeg", jpg_quality=quality)]. *)
Inductive encoding : Type :=
  | EncPng
  | EncJpeg (quality : Z).

(** An opened document: its page count [len(doc)] and what rendering page
    [page_num] at [dpi] with an encoding gives, the image bytes or the
    message [str(e)] of the exception raised on the way
    ([doc[page_num]], [get_pixmap], [tobytes]). *)
Record Document : Type := {
  num_pages : nat;
  render : nat → Z → encoding → string + bytes
}.

(** A render task, the tuple
    [(pdf_path, page_num, dpi, img_format, quality)]. *)
Definition Task : Type := path * nat * Z * string * Z.

(** What [convert_page] returns, the tuple
    [(page_num, img_data, ext, error)]; an absent component is [None]. *)
Definition PageResult : Type := nat * option bytes * option string * option string.

(** An element of [results], the tuple [(page_num, img_data, ext)]. *)
Definition Entry : Type := nat * option bytes * option string.

Definition entry_page (r : Entry) : nat := r.1.1.
Definition entry_data (r : Entry) : option bytes := r.1.2.
Definition entry_ext (r : Entry) : option string := r.2.

(** The process pool of the platform.

    [pool_limit w] is what the constructor
    [ProcessPoolExecutor(max_workers=w)] raises for a positive [w], if it
    raises: under CPython on Linux [OverflowError] from 2147483647 on (the
    bound of the call queue, [w + 1], must fit a C int), on Windows
    [ValueError] above 61; other platforms have limits of their own.

    [as_completed] is the order in which the futures of the submitted
    tasks are handed back: each task once, in an order that may depend on
    the number of workers and on anything else. *)
Record Scheduler : Type := {
  pool_limit : Z → option exn;
  as_completed : option Z → list Task → list Task;
  as_completed_perm : ∀ w tasks, Permutation (as_completed w tasks) tasks
}.

(** Python's [if error:] on a value that is [None] or a [str]. *)
Definition truthy_error (error : option string) : bool :=
  match error with
  | Some e => Str.truthy e
  | None => false
  end.

(** [f"{ext}"] for a value that is a [str] or [None]. *)
Definition format_ext (ext : option string) : string :=
  match ext with
  | Some e => e
  | None => "None"
  end.

(** [f"page_{page_num + 1:03d}.{ext}"] *)
Definition page_filename (page_num : nat) (ext : option string) : string :=
  "page_" +:+ Str.zfill 3 (Str.of_nat (page_num + 1)) +:+ "." +:+ format_ext ext.

(** [results.sort(key=lambda x: x[0])]: Python's sort is stable, so the
    outcome is the stable arrangement by key; insertion from the right,
    placing an element before the first one whose key is not smaller,
    computes it. *)
Fixpoint insert_by_page (r : Entry) (l : list Entry) : list Entry :=
  match l with
  | [] => [r]
  | x :: l' =>
      if (entry_page r <=? entry_page x)%nat then r :: x :: l'
      else x :: insert_by_page r l'
  end.

Fixpoint sort_by_page (l : list Entry) : list Entry :=
  match l with
  | [] => []
  | r :: l' => insert_by_page r (sort_by_page l')
  end.

Section Converter.

(** [fitz.open] on what the file system has at the path: the document, or
    the message of the exception. *)
Variable fitz_open : option node → string + Document.

(** [os.cpu_count()] *)
Variable cpu_count : option Z.

Variable sched : Scheduler.

(** *** [convert_page] (lines 11-38) *)

Definition convert_page (fs : FS) (args : Task) : PageResult :=
  let '(pdf_path, page_num, dpi, img_format, quality) := args in
  match fitz_open (node_at fs pdf_path) with
  | inl e => (page_num, None, None, Some e)
  | inr doc =>
      if String.eqb (Str.lower img_format) "png" then
        match render doc page_num dpi EncPng with
        | inr img_data => (page_num, Some img_data, Some "png", None)
        | inl e => (page_num, None, None, Some e)
        end
      else
        match render doc page_num dpi (EncJpeg quality) with
        | inr img_data => (page_num, Some img_data, Some "jpg", None)
        | inl e => (page_num, None, None, Some e)
        end
  end.

(** *** The stages of [convert_pdf_to_images] *)

(** Line 92: one task per page index of [range(num_pages)]. *)
Definition make_tasks (pdf_path : path) (n : nat) (dpi : Z)
    (img_format : string) (quality : Z) : list Task :=
  (λ i, (pdf_path, i, dpi, img_format, quality)) <$> seq 0 n.

(** Line 96: [ProcessPoolExecutor(max_workers=num_workers)].  The
    constructor refuses a worker count that is not positive with
    [ValueError], and a positive one that is beyond what the platform's
    pool takes with the exception of [pool_limit].  Without a count it
    settles on one itself ([os.cpu_count() or 1]) and raises nothing. *)
Definition process_pool (num_workers : option Z) : M unit :=
  match num_workers with
  | Some w =>
      if (w <=? 0)%Z then raise ValueError
      else
        match pool_limit sched w with
        | Some e => raise e
        | None => mret tt
        end
  | None => mret tt
  end.

(** Lines 100-108: the loop over the completed futures.  The workers read
    the file system as it is while the pool runs.  The loop gives the list
    [results] and the lines printed for the pages whose [error] is
    truthy. *)
Fixpoint collect (fs : FS) (completed : list Task) : list Entry * list Msg :=
  match completed with
  | [] => ([], [])
  | task :: rest =>
      let '(page_num, img_data, ext, error) := convert_page fs task in
      let '(results, printed) := collect fs rest in
      if truthy_error error
      then (results, MsgPageFailed (page_num + 1) (default "" error) :: printed)
      else ((page_num, img_data, ext) :: results, printed)
  end.

(** Lines 95-111: pool, collection and the sort. *)
Definition render_all (num_workers : option Z) (tasks : list Task) : M (list Entry) :=
  process_pool num_workers;;
  fs ← get_fs;
  let collected := collect fs (as_completed sched num_workers tasks) in
  print_all collected.2;;
  mret (sort_by_page collected.1).

(** Lines 117-124: the write loop; [ext] is fixed before the loop. *)
Fixpoint write_pages (output_dir : path) (ext : option string)
    (results : list Entry) : M (list path) :=
  match results with
  | [] => mret []
  | (page_num, img_data, _) :: rest =>
      let filepath := output_dir // page_filename page_num ext in
      open_w (Raw []) filepath;;
      write_data filepath img_data;;
      saved_files ← write_pages output_dir ext rest;
      mret (filepath :: saved_files)
  end.

(** Lines 114-124. *)
Definition save_images (output_dir : path) (results : list Entry) : M (list path) :=
  let ext :=
    match results with
    | r :: _ => entry_ext r
    | [] => Some "jpg"
    end in
  write_pages output_dir ext results.

(** Line 136, [zipf.write(file, file.name)] for each saved file, reading
    the files from [fs]: the members added, and the exception that stopped
    the loop if one did.  A directory is stored as an empty member whose
    name ends with a slash. *)
Fixpoint zip_write_all (fs : FS) (files : list path)
    : list (string * content) * option exn :=
  match files with
  | [] => ([], None)
  | file :: rest =>
      match node_at fs file with
      | Some (File c) =>
          let '(members, err) := zip_write_all fs rest in
          ((Path.name file, c) :: members, err)
      | Some Dir =>
          let '(members, err) := zip_write_all fs rest in
          ((Path.name file +:+ "/", Raw []) :: members, err)
      | None => ([], Some (FileNotFoundError file))
      end
  end.

(** Lines 134-136: [ZipFile(zip_path, 'w', ZIP_DEFLATED)] creates or
    truncates the archive file; leaving the [with] block closes the
    archive with the members added so far, also when an exception passes
    through. *)
Definition write_zip (zip_path : path) (saved_files : list path) : M unit :=
  open_w (Zip []) zip_path;;
  fs ← get_fs;
  let written := zip_write_all fs saved_files in
  put_fs (<[zip_path := File (Zip written.1)]> fs);;
  match written.2 with
  | Some e => raise e
  | None => mret tt
  end.

(** Lines 130-141. *)
Definition make_zip (pdf_path output_dir : path) (create_zip : bool)
    (saved_files : list path) : M unit :=
  if create_zip && negb (bool_decide (saved_files = [])) then
    let zip_path := Path.parent pdf_path // (Path.stem pdf_path +:+ "_images.zip") in
    print MsgZipStart;;
    write_zip zip_path saved_files;;
    print (MsgZipDone zip_path);;
    print (MsgKeepDir output_dir)
  else mret tt.

(** Lines 62-65. *)
Definition output_dir_of (pdf_path : path) (output_dir : option path) : path :=
  match output_dir with
  | None => Path.parent pdf_path // (Path.stem pdf_path +:+ "_images")
  | Some d => d
  end.

(** Line 81, [num_workers or os.cpu_count()]. *)
Definition workers_shown (num_workers : option Z) : option Z :=
  match num_workers with
  | Some w => if (w =? 0)%Z then cpu_count else Some w
  | None => cpu_count
  end.

(** Lines 70-85: the document is opened once for its page count; any
    exception is caught and its message kept. *)
Definition load_info (pdf_path : path) (img_format : string) (dpi quality : Z)
    (num_workers : option Z) : M (string + nat) :=
  fs ← get_fs;
  match fitz_open (node_at fs pdf_path) with
  | inr doc =>
      print (MsgPdfFile (Path.name pdf_path));;
      print (MsgNumPages (num_pages doc));;
      print (MsgFormat (Str.upper img_format));;
      print (MsgDpi dpi);;
      (if String.eqb (Str.lower img_format) "jpeg"
       then print (MsgQuality quality) else mret tt);;
      print (MsgWorkers (workers_shown num_workers));;
      mret (inr (num_pages doc))
  | inl e => mret (inl e)
  end.

(** *** [convert_pdf_to_images] (lines 41-143) *)

Definition convert_pdf_to_images (pdf_path : path) (output_dir : option path)
    (img_format : string) (dpi quality : Z) (create_zip : bool)
    (num_workers : option Z) : M bool :=
  found ← path_exists pdf_path;
  if negb found then
    print (MsgFileNotFound pdf_path);;
    mret false
  else
    let output_dir := output_dir_of pdf_path output_dir in
    mkdir_exist_ok output_dir;;
    info ← load_info pdf_path img_format dpi quality num_workers;
    match info with
    | inl e =>
        print (MsgOpenFailed e);;
        mret false
    | inr n =>
        let num_workers :=
          match num_workers with
          | None => cpu_count
          | Some w => Some w
          end in
        let tasks := make_tasks pdf_path n dpi img_format quality in
        results ← render_all num_workers tasks;
        saved_files ← save_images output_dir results;
        print (MsgConverted (length saved_files));;
        print (MsgSavedTo output_dir);;
        make_zip pdf_path output_dir create_zip saved_files;;
        mret true
    end.

(** *** [main] (lines 146-198), from the parsed arguments on *)

Record Args : Type := {
  pdf_file : path;
  output : option path;
  format : string;
  dpi : Z;
  quality : Z;
  no_zip : bool;
  workers : option Z
}.

(** How the process ends: [sys.exit(code)], or an exception nobody caught,
    for which the interpreter prints a traceback. *)
Inductive Outcome : Type :=
  | Exit (code : Z)
  | Traceback (e : exn).

Definition main (args : Args) (fs : FS) : Outcome * FS * list Msg :=
  if (quality args <? 1)%Z || (quality args >? 100)%Z then
    (Exit 1, fs, [MsgBadQuality])
  else
    let warned :=
      if (dpi args <? 72)%Z then [MsgDpiLow]
      else if (dpi args >? 600)%Z then [MsgDpiHigh]
      else [] in
    match convert_pdf_to_images (pdf_file args) (output args) (format args)
            (dpi args) (quality args) (negb (no_zip args)) (workers args) fs with
    | (Ok success, fs', printed) =>
        (Exit (if success then 0 else 1)%Z, fs', warned ++ printed)
    | (Raised e, fs', printed) => (Traceback e, fs', warned ++ printed)
    end.

End Converter.

(** The exit status the operating system sees: an uncaught exception makes
    the interpreter exit with status 1. *)
Definition exit_status (o : Outcome) : Z :=
  match o with
  | Exit code => code
  | Traceback _ => 1%Z
  end.

(** ** Vocabulary of the statements *)

(** The encoding and the extension [convert_page] settles on for an image
    format. *)
Definition encoding_of (img_format : string) (quality : Z) : encoding :=
  if String.eqb (Str.lower img_format) "png" then EncPng else EncJpeg quality.

Definition ext_of (img_format : string) : string :=
  if String.eqb (Str.lower img_format) "png" then "png" else "jpg".

(** Page [i] with its bytes, when it renders. *)
Definition rendered_page (doc : Document) (dpi : Z) (img_format : string)
    (quality : Z) (i : nat) : option (nat * bytes) :=
  match render doc i dpi (encoding_of img_format quality) with
  | inr d => Some (i, d)
  | inl _ => None
  end.

(** The pages of a document that render, in page order, with their bytes. *)
Definition rendered (doc : Document) (dpi : Z) (img_format : string) (quality : Z)
    : list (nat * bytes) :=
  omap (rendered_page doc dpi img_format quality) (seq 0 (num_pages doc)).

(** The entry of a rendered page. *)
Definition success_entry (img_format : string) (p : nat * bytes) : Entry :=
  (p.1, Some p.2, Some (ext_of img_format)).

(** The file of page [i] in a run with one image format. *)
Definition page_file (output_dir : path) (img_format : string) (i : nat) : path :=
  output_dir // page_filename i (Some (ext_of img_format)).

(** The archive member of a rendered page. *)
Definition page_member (img_format : string) (p : nat * bytes) : string * content :=
  (page_filename p.1 (Some (ext_of img_format)), Raw p.2).

(** What the collection loop keeps of page [i]: nothing when the page's
    error message is truthy. *)
Definition kept (doc : Document) (dpi : Z) (img_format : string) (quality : Z)
    (i : nat) : option Entry :=
  match render doc i dpi (encoding_of img_format quality) with
  | inr d => Some (i, Some d, Some (ext_of img_format))
  | inl e => if Str.truthy e then None else Some (i, None, None)
  end.

(** The line printed for page [i], when its error message is truthy. *)
Definition failure_line (doc : Document) (dpi : Z) (img_format : string)
    (quality : Z) (i : nat) : option Msg :=
  match render doc i dpi (encoding_of img_format quality) with
  | inl e => if Str.truthy e then Some (MsgPageFailed (i + 1) e) else None
  | inr _ => None
  end.

(** One round of the collection loop on a completed task: the entry it
    appends, or the line it prints. *)
Definition keep_of (fitz_open : option node → string + Document) (fs : FS)
    (t : Task) : option Entry :=
  let r := convert_page fitz_open fs t in
  if truthy_error r.2 then None else Some r.1.

Definition line_of (fitz_open : option node → string + Document) (fs : FS)
    (t : Task) : option Msg :=
  let r := convert_page fitz_open fs t in
  if truthy_error r.2 then Some (MsgPageFailed (r.1.1.1 + 1) (default "" r.2)) else None.

(** The worker count handed to the pool (lines 88-89). *)
Definition pool_workers (cpu_count num_workers : option Z) : option Z :=
  match num_workers with
  | Some w => Some w
  | None => cpu_count
  end.

(** A worker count the process pool accepts: none, or a positive one
    within the platform's limit. *)
Definition pool_accepts (sched : Scheduler) (num_workers : option Z) : Prop :=
  match num_workers with
  | Some w => (0 < w)%Z ∧ pool_limit sched w = None
  | None => True
  end.

(** The page index of a task. *)
Definition task_page (t : Task) : nat := t.1.1.1.2.

(** The page indices of a document of [n] pages in the order in which the
    pool completes their tasks. *)
Definition completion_order (sched : Scheduler) (num_workers : option Z)
    (pdf_path : path) (n : nat) (dpi : Z) (img_format : string) (quality : Z)
    : list nat :=
  task_page <$>
    as_completed sched num_workers (make_tasks pdf_path n dpi img_format quality).

(** The lines of lines 75-81. *)
Definition info_lines (cpu_count : option Z) (pdf_path : path) (n : nat)
    (img_format : string) (dpi quality : Z) (num_workers : option Z) : list Msg :=
  [MsgPdfFile (Path.name pdf_path); MsgNumPages n;
   MsgFormat (Str.upper img_format); MsgDpi dpi] ++
  (if String.eqb (Str.lower img_format) "jpeg" then [MsgQuality quality] else []) ++
  [MsgWorkers (workers_shown cpu_count num_workers)].

(** The resolution warning of lines 182-185. *)
Definition dpi_warning (dpi : Z) : list Msg :=
  if (dpi <? 72)%Z then [MsgDpiLow]
  else if (dpi >? 600)%Z then [MsgDpiHigh]
  else [].

(** The archive path of line 131. *)
Definition zip_path_of (pdf_path : path) : path :=
  Path.parent pdf_path // (Path.stem pdf_path +:+ "_images.zip").

(** The file the write loop gives an entry. *)
Definition file_of (output_dir : path) (ext : option string) (r : Entry) : path :=
  output_dir // page_filename (entry_page r) ext.

(** A run reached the archive stage when it returned [True], or when it
    ended with an exception after announcing the archive. *)
Definition reached_archive (r : result bool) (log : list Msg) : Prop :=
  r = Ok true ∨ ((∃ e, r = Raised e) ∧ MsgZipStart ∈ log).


(** Entries ordered by page number, equal numbers allowed. *)
Definition le_page (a b : Entry) : Prop := (entry_page a ≤ entry_page b)%nat.

(** Entries in strictly ascending page order. *)
Definition ascending (l : list Entry) : Prop :=
  StronglySorted (λ a b, entry_page a < entry_page b) l.

(** What a stage may do to the file system when it works for the output
    directory [out] and the archive [zip]: it keeps every directory a
    directory, removes nothing, and leaves alone every path that is not
    [out], not a [page_...] file of [out] and, with archiving on, not
    [zip]. *)
Definition only_outputs_changed (out zip : path) (with_zip : bool) (fs fs' : FS) : Prop :=
  ∀ p,
    (node_at fs p = Some Dir → node_at fs' p = Some Dir) ∧
    (is_Some (node_at fs p) → is_Some (node_at fs' p)) ∧
    (p ≠ out → (with_zip = true → p ≠ zip) →
     (∀ i ext, p ≠ out // page_filename i ext) →
     node_at fs' p = node_at fs p).

(** ** Concrete documents and runs *)

Module Examples.

(** The bytes a toy page renders to: a marker for the encoding, then as
    many bytes as the page index. *)
Definition image (i : nat) (enc : encoding) : bytes :=
  match enc with
  | EncPng => Byte.x89 :: repeat Byte.x01 i
  | EncJpeg _ => Byte.xff :: repeat Byte.x01 i
  end.

(** A toy document of [n] pages; page [i] fails with the message [bad i]
    when there is one. *)
Definition doc_of (n : nat) (bad : nat → option string) : Document :=
  {| num_pages := n;
     render := λ i _ enc,
       match bad i with
       | Some e => inl e
       | None => inr (image i enc)
       end |}.

(** A toy rendering library: a file opens as a document when it holds raw
    bytes, the first byte being the page count. *)
Definition fitz (bad : nat → option string) (n : option node) : string + Document :=
  match n with
  | Some (File (Raw (b :: _))) => inr (doc_of (Byte.to_nat b) bad)
  | _ => inl "cannot open"
  end.

Definition all_good (i : nat) : option string := None.

Definition only_bad (k : nat) (e : string) (i : nat) : option string :=
  if (i =? k)%nat then Some e else None.

(** The limits of the pool under CPython on Linux and on Windows. *)
Definition linux_limit (w : Z) : option exn :=
  if (2147483647 <=? w)%Z then Some OverflowError else None.

Definition windows_limit (w : Z) : option exn :=
  if (61 <? w)%Z then Some ValueError else None.

(** Two pools on Linux: completion in submission order, and in reverse;
    and one on Windows. *)
Definition in_order : Scheduler :=
  {| pool_limit := linux_limit;
     as_completed := λ _ l, l;
     as_completed_perm := λ _ l, Permutation_refl l |}.

Definition reversed : Scheduler :=
  {| pool_limit := linux_limit;
     as_completed := λ _ l, rev l;
     as_completed_perm := λ _ l, Permutation_sym (Permutation_rev l) |}.

Definition in_order_windows : Scheduler :=
  {| pool_limit := windows_limit;
     as_completed := λ _ l, l;
     as_completed_perm := λ _ l, Permutation_refl l |}.

Definition pdf : path := ["doc.pdf"].

(** A directory holding one document of [n] pages. *)
Definition fs_with (n : Byte.byte) : FS := {[ pdf := File (Raw [n]) ]}.

Definition args_default : Args :=
  {| pdf_file := pdf; output := None; format := "jpeg"; dpi := 150;
     quality := 85; no_zip := false; workers := Some 4%Z |}.

(** The output directory is there already and holds a directory with the
    name of the first page's file. *)
Definition fs_blocked_page : FS :=
  <[ ["doc_images"; "page_001.jpg"] := Dir ]>
    (<[ ["doc_images"] := Dir ]> (fs_with Byte.x02)).

(** A directory sits where the archive is to be created. *)
Definition fs_blocked_zip : FS :=
  <[ ["doc_images.zip"] := Dir ]> (fs_with Byte.x02).

(** What the runs below print first, and the bytes of a page as jpeg. *)
Definition info_default (n : nat) : list Msg :=
  [MsgPdfFile "doc.pdf"; MsgNumPages n; MsgFormat "JPEG"; MsgDpi 150;
   MsgQuality 85; MsgWorkers (Some 4%Z)].

Definition jpeg (i : nat) : bytes := image i (EncJpeg 85).

(** A file system with the jpeg files of the given pages in [doc_images]. *)
Definition with_pages (pages : list nat) (fs : FS) : FS :=
  foldr (λ i fs', <[ ["doc_images"; page_filename i (Some "jpg")] := File (Raw (jpeg i)) ]> fs')
    fs pages.

(** The five-page document whose third page is corrupt, converted with the
    default arguments, the pool completing in reverse order; the state and
    the log the run ends with. *)
Definition run_five : result bool * FS * list Msg :=
  convert_pdf_to_images (fitz (only_bad 2 "corrupt page")) None reversed
    pdf None "jpeg" 150 85 true (Some 4%Z) (fs_with Byte.x05).

Definition fs_five_done : FS :=
  <[ ["doc_images.zip"] :=
       File (Zip ((λ i, (page_filename i (Some "jpg"), Raw (jpeg i))) <$> [0; 1; 3; 4]%nat)) ]>
    (with_pages [0; 1; 3; 4]%nat (<[ ["doc_images"] := Dir ]> (fs_with Byte.x05))).

Definition log_five : list Msg :=
  info_default 5 ++
  [MsgPageFailed 3 "corrupt page"; MsgConverted 4; MsgSavedTo ["doc_images"];
   MsgZipStart; MsgZipDone ["doc_images.zip"]; MsgKeepDir ["doc_images"]].

(** The command line with the default arguments on four documents: two
    good pages with the first page's file name taken by a directory; two
    good pages with the archive's name taken by a directory; no page at
    all; five pages of which the third fails with an empty message.  Each
    with the state the run ends in. *)
Definition main_blocked_page : Outcome * FS * list Msg :=
  main (fitz all_good) None in_order args_default fs_blocked_page.

Definition main_blocked_zip : Outcome * FS * list Msg :=
  main (fitz all_good) None in_order args_default fs_blocked_zip.

Definition fs_blocked_zip_done : FS :=
  with_pages [0; 1]%nat (<[ ["doc_images"] := Dir ]> fs_blocked_zip).


Definition fs_no_pages_done : FS := <[ ["doc_images"] := Dir ]> (fs_with Byte.x00).

Definition main_empty_message : Outcome * FS * list Msg :=
  main (fitz (only_bad 2 "")) None reversed args_default (fs_with Byte.x05).

Definition fs_empty_message_done : FS :=
  <[ ["doc_images"; "page_003.jpg"] := File (Raw []) ]>
    (with_pages [0; 1]%nat (<[ ["doc_images"] := Dir ]> (fs_with Byte.x05))).

(** The same conversion once more, on what the first run left. *)
Definition run_five_again : result bool * FS * list Msg :=
  convert_pdf_to_images (fitz (only_bad 2 "corrupt page")) None reversed
    pdf None "jpeg" 150 85 true (Some 4%Z) fs_five_done.

(** Every page fails with a message. *)
Definition all_bad (i : nat) : option string := Some "corrupt page".

(** A file that is no document, and a directory in which the name of the
    output directory is taken by a file. *)
Definition fs_not_a_pdf : FS := {[ pdf := File (Raw []) ]}.

Definition fs_output_taken : FS :=
  <[ ["doc_images"] := File (Raw []) ]> (fs_with Byte.x02).



(** The default arguments with another worker count. *)
Definition args_workers (w : Z) : Args :=
  {| pdf_file := pdf; output := None; format := "jpeg"; dpi := 150;
     quality := 85; no_zip := false; workers := Some w |}.

Definition info_workers (n : nat) (w : Z) : list Msg :=
  [MsgPdfFile "doc.pdf"; MsgNumPages n; MsgFormat "JPEG"; MsgDpi 150;
   MsgQuality 85; MsgWorkers (Some w)].


End Examples.

(** * Properties *)

(** ** Strings and file names *)

Module StrFacts.
Import Str.

Lemma length_app (s t : string) :
  String.length (s +:+ t) = (String.length s + String.length t)%nat.
Proof. induction s as [|a s IH]; simpl; [done | by rewrite IH]. Qed.

Lemma app_inv_tail (s1 s2 t : string) : s1 +:+ t = s2 +:+ t → s1 = s2.
Proof.
  revert s2. induction s1 as [|a s1 IH]; intros [|b s2] H; simpl in *.
  - done.
  - apply (f_equal String.length) in H. rewrite !length_app in H. simpl in H. lia.
  - apply (f_equal String.length) in H. rewrite !length_app in H. simpl in H. lia.
  - injection H as -> H. f_equal. by apply IH.
Qed.

Lemma last_char_app (s t : string) : t ≠ "" → last_char (s +:+ t) = last_char t.
Proof.
  intros Ht. induction s as [|a s IH]; simpl; [done|].
  rewrite IH. destruct (s +:+ t) eqn:E; [|done].
  destruct s; simpl in E; [done | discriminate].
Qed.

Lemma uint_of_zeros (k : nat) (s : string) :
  NilEmpty.uint_of_string (zeros k +:+ s) =
  Nat.iter k (option_map Decimal.D0) (NilEmpty.uint_of_string s).
Proof. induction k as [|k IH]; simpl; [done | by rewrite IH]. Qed.

(** Reading a zero-padded numeral back gives the number. *)
Lemma to_nat_zfill (w n : nat) : to_nat (zfill w (of_nat n)) = Some n.
Proof.
  unfold to_nat, zfill, of_nat. rewrite uint_of_zeros, NilEmpty.usu.
  induction (w - _)%nat as [|k IH]; simpl.
  - by rewrite DecimalNat.Unsigned.of_to.
  - destruct (Nat.iter k _ _) as [d|]; simpl in *; [|done].
    injection IH as IH. f_equal. unfold Nat.of_uint in *. simpl. done.
Qed.

Lemma length_zeros (k : nat) : String.length (zeros k) = k.
Proof. induction k; simpl; congruence. Qed.

Lemma length_zfill (w : nat) (s : string) : (w ≤ String.length (zfill w s))%nat.
Proof. unfold zfill. rewrite length_app, length_zeros. lia. Qed.

Lemma length_zfill_max (w : nat) (s : string) :
  String.length (zfill w s) = Nat.max w (String.length s).
Proof. unfold zfill. rewrite length_app, length_zeros. lia. Qed.

Lemma zfill_wide (w : nat) (s : string) : (w ≤ String.length s)%nat → zfill w s = s.
Proof. intros H. unfold zfill. by replace (w - String.length s)%nat with 0%nat by lia. Qed.

Lemma zfill_inj (w a b : nat) : zfill w (of_nat a) = zfill w (of_nat b) → a = b.
Proof.
  intros H. apply (f_equal to_nat) in H. rewrite !to_nat_zfill in H. congruence.
Qed.

End StrFacts.

(** The page number is recovered from the file name: two pages never share
    a name. *)
Lemma page_filename_inj (a b : nat) (ext : option string) :
  page_filename a ext = page_filename b ext → a = b.
Proof.
  unfold page_filename. intros H.
  change ("page_" +:+ ?s) with (String "p" (String "a" (String "g" (String "e" (String "_" s))))) in H.
  injection H as H.
  apply StrFacts.app_inv_tail, StrFacts.zfill_inj in H. lia.
Qed.

Lemma page_filename_last (page_num : nat) (ext : option string) :
  format_ext ext ≠ "" →
  Str.last_char (page_filename page_num ext) = Str.last_char (format_ext ext).
Proof.
  intros H. unfold page_filename.
  rewrite !StrFacts.last_char_app; [done.. | |].
  - by destruct (format_ext ext).
  - intros E. apply (f_equal String.length) in E.
    rewrite !StrFacts.length_app in E. simpl in E. lia.
Qed.

(** ** Paths *)

Module PathFacts.

Lemma parent_join (p : path) (s : string) : Path.parent (p // s) = p.
Proof. apply removelast_last. Qed.

Lemma name_join (p : path) (s : string) : Path.name (p // s) = s.
Proof. apply last_last. Qed.

Lemma join_inj (p q : path) (s t : string) : p // s = q // t → p = q ∧ s = t.
Proof. apply app_inj_tail. Qed.

Lemma join_ne (p : path) (s : string) : p // s ≠ p.
Proof.
  intros E. apply (f_equal length) in E. unfold Path.join in E.
  rewrite length_app in E. simpl in E. lia.
Qed.

Lemma join_not_nil (p : path) (s : string) : p // s ≠ [].
Proof. unfold Path.join. by destruct p. Qed.

Lemma node_at_join (fs : FS) (p : path) (s : string) :
  node_at fs (p // s) = fs !! (p // s).
Proof. unfold Path.join. by destruct p. Qed.

Lemma node_at_insert_ne (fs : FS) (p q : path) (n : node) :
  p ≠ q → node_at (<[p := n]> fs) q = node_at fs q.
Proof. intros H. destruct q; [done|]. simpl. by rewrite lookup_insert_ne. Qed.

Lemma node_at_insert_eq (fs : FS) (p : path) (n : node) :
  p ≠ [] → node_at (<[p := n]> fs) p = Some n.
Proof. intros H. destruct p; [done|]. simpl. by rewrite lookup_insert_eq. Qed.

End PathFacts.

(** ** Running computations *)

Lemma bind_run {A B} (m : M A) (k : A → M B) (fs : FS) :
  (m ≫= k) fs =
  match m fs with
  | (Ok a, fs1, l1) => match k a fs1 with (r, fs2, l2) => (r, fs2, l1 ++ l2) end
  | (Raised e, fs1, l1) => (Raised e, fs1, l1)
  end.
Proof. reflexivity. Qed.

(** A run is known by its result, the entries of its file system and its
    log; the three can be evaluated one by one. *)
Lemma run_eq {A} (run : A * FS * list Msg) (r : A) (fs : FS) (l : list Msg) :
  run.1.1 = r → map_to_list run.1.2 ≡ₚ map_to_list fs → run.2 = l → run = (r, fs, l).
Proof.
  destruct run as [[r' fs'] l']. simpl. intros -> Hfs ->.
  by apply map_to_list_inj in Hfs as ->.
Qed.

Ltac run_is := apply run_eq; vm_compute; reflexivity.

Lemma mkdir_run (p : path) (fs : FS) :
  mkdir_exist_ok p fs =
  match node_at fs p with
  | Some Dir => (Ok tt, fs, [])
  | Some (File _) => (Raised (FileExistsError p), fs, [])
  | None =>
      match node_at fs (Path.parent p) with
      | Some Dir => (Ok tt, <[p := Dir]> fs, [])
      | Some (File _) => (Raised (NotADirectoryError p), fs, [])
      | None => (Raised (FileNotFoundError p), fs, [])
      end
  end.
Proof.
  unfold mkdir_exist_ok. rewrite bind_run. cbn.
  destruct (node_at fs p) as [[|c]|]; [done.. |].
  by destruct (node_at fs (Path.parent p)) as [[|c]|].
Qed.

Lemma open_w_run (empty : content) (p : path) (fs : FS) :
  open_w empty p fs =
  match node_at fs p with
  | Some Dir => (Raised (IsADirectoryError p), fs, [])
  | _ =>
      match node_at fs (Path.parent p) with
      | Some Dir => (Ok tt, <[p := File empty]> fs, [])
      | Some (File _) => (Raised (NotADirectoryError p), fs, [])
      | None => (Raised (FileNotFoundError p), fs, [])
      end
  end.
Proof.
  unfold open_w. rewrite bind_run. cbn.
  destruct (node_at fs p) as [[|c]|]; [done | |];
    by destruct (node_at fs (Path.parent p)) as [[|c']|].
Qed.

(** A directory that could be made is a directory afterwards, and nothing
    else changed. *)
Lemma mkdir_ok_inv (p : path) (fs fs1 : FS) (l : list Msg) :
  mkdir_exist_ok p fs = (Ok tt, fs1, l) →
  l = [] ∧ node_at fs1 p = Some Dir ∧
  (fs1 = fs ∨ (node_at fs p = None ∧ fs1 = <[p := Dir]> fs)).
Proof.
  rewrite mkdir_run. intros H.
  destruct (node_at fs p) as [[|c]|] eqn:E.
  - injection H as <- <-. auto.
  - discriminate.
  - destruct (node_at fs (Path.parent p)) as [[|c]|]; try discriminate.
    injection H as <- <-. split; [done|]. split; [|auto].
    apply PathFacts.node_at_insert_eq. intros ->. discriminate.
Qed.

Lemma mkdir_keeps (p q : path) (fs fs1 : FS) (l : list Msg) :
  mkdir_exist_ok p fs = (Ok tt, fs1, l) →
  is_Some (node_at fs q) → node_at fs1 q = node_at fs q.
Proof.
  intros H Hq. apply mkdir_ok_inv in H as (_ & _ & [-> | [Hn ->]]); [done|].
  apply PathFacts.node_at_insert_ne. intros ->. rewrite Hn in Hq. by destruct Hq.
Qed.

(** ** The write loop *)

Section WriteLoop.

Variables (output_dir : path) (ext : option string).

Local Abbreviation file_of := (file_of output_dir ext).

(** One round of the loop, spelled out. *)
Lemma write_pages_cons (r : Entry) (rest : list Entry) (fs : FS) :
  write_pages output_dir ext (r :: rest) fs =
  match node_at fs (file_of r) with
  | Some Dir => (Raised (IsADirectoryError (file_of r)), fs, [])
  | _ =>
      match node_at fs output_dir with
      | Some Dir =>
          match entry_data r with
          | Some b =>
              match write_pages output_dir ext rest (<[file_of r := File (Raw b)]> fs) with
              | (Ok saved, fs', l) => (Ok (file_of r :: saved), fs', l)
              | (Raised e, fs', l) => (Raised e, fs', l)
              end
          | None => (Raised TypeError, <[file_of r := File (Raw [])]> fs, [])
          end
      | Some (File _) => (Raised (NotADirectoryError (file_of r)), fs, [])
      | None => (Raised (FileNotFoundError (file_of r)), fs, [])
      end
  end.
Proof.
  destruct r as [[page_num img_data] e]. unfold file_of, entry_page, entry_data.
  cbn [write_pages fst snd]. rewrite bind_run, open_w_run, PathFacts.parent_join.
  set (p := output_dir // page_filename page_num ext).
  destruct (node_at fs p) as [[|c]|]; [done | |];
    (destruct (node_at fs output_dir) as [[|c']|]; [|done..];
     rewrite bind_run; destruct img_data as [b|]; [|done];
     unfold write_data; rewrite bind_run; cbn; rewrite bind_run, insert_insert_eq;
     destruct (write_pages _ _ _ _) as [[[saved|e'] fs'] l]; cbn;
     by rewrite ?app_nil_r).
Qed.

(** A loop that ran to its end wrote exactly one file per entry, left
    every other path as it was, and every entry carried bytes. *)
Lemma write_pages_ok_inv (rs : list Entry) (fs fs' : FS) (saved : list path)
    (l : list Msg) :
  write_pages output_dir ext rs fs = (Ok saved, fs', l) →
  l = [] ∧ saved = file_of <$> rs ∧
  (∀ p, p ∉ saved → fs' !! p = fs !! p) ∧
  Forall (λ r, is_Some (entry_data r)) rs ∧
  (rs ≠ [] → node_at fs output_dir = Some Dir).
Proof.
  revert fs saved. induction rs as [|r rs IH]; intros fs saved H.
  - injection H as <- <- <-. split_and!; auto. congruence.
  - rewrite write_pages_cons in H.
    assert (∃ b saved', node_at fs output_dir = Some Dir ∧ entry_data r = Some b ∧
              write_pages output_dir ext rs (<[file_of r := File (Raw b)]> fs)
                = (Ok saved', fs', l) ∧ saved = file_of r :: saved')
      as (b & saved' & Hd & Hb & Hw & ->).
    { destruct (node_at fs (file_of r)) as [[|c]|]; [done | |];
        (destruct (node_at fs output_dir) as [[|c']|]; [|done..];
         destruct (entry_data r) as [b|]; [|done];
         destruct (write_pages _ _ rs _) as [[[saved'|e'] fs''] l'] eqn:Ew; [|done];
         injection H as <- <- <-; by exists b, saved'). }
    apply IH in Hw as (-> & -> & Hother & Hdata & _).
    split_and!; [done | done | | | done].
    + intros p Hp. apply not_elem_of_cons in Hp as [Hne Hp].
      rewrite Hother by done. by apply lookup_insert_ne.
    + constructor; [rewrite Hb; eauto | done].
Qed.

Lemma file_of_inj (r r' : Entry) :
  file_of r = file_of r' → entry_page r = entry_page r'.
Proof.
  unfold file_of. intros H. apply PathFacts.join_inj in H as [_ H].
  by apply page_filename_inj in H.
Qed.

(** With distinct page numbers no file is written twice, so every entry's
    bytes are in its file when the loop ends. *)
Lemma write_pages_written (rs : list Entry) (fs fs' : FS) (saved : list path)
    (l : list Msg) :
  write_pages output_dir ext rs fs = (Ok saved, fs', l) →
  NoDup (entry_page <$> rs) →
  ∀ r, r ∈ rs → ∃ b, entry_data r = Some b ∧ fs' !! file_of r = Some (File (Raw b)).
Proof.
  revert fs saved. induction rs as [|r0 rs IH]; intros fs saved H Hnd r Hr.
  - by apply elem_of_nil in Hr.
  - rewrite fmap_cons in Hnd. apply NoDup_cons in Hnd as [Hfresh Hnd].
    rewrite write_pages_cons in H.
    assert (∃ b saved', entry_data r0 = Some b ∧
              write_pages output_dir ext rs (<[file_of r0 := File (Raw b)]> fs)
                = (Ok saved', fs', l))
      as (b & saved' & Hb & Hw).
    { destruct (node_at fs (file_of r0)) as [[|c]|]; [done | |];
        (destruct (node_at fs output_dir) as [[|c']|]; [|done..];
         destruct (entry_data r0) as [b|]; [|done];
         destruct (write_pages _ _ rs _) as [[[saved'|e'] fs''] l'] eqn:Ew; [|done];
         injection H as <- <- <-; by exists b, saved'). }
    apply elem_of_cons in Hr as [-> | Hr]; [|by eapply IH].
    exists b. split; [done|].
    apply write_pages_ok_inv in Hw as (_ & -> & Hother & _).
    rewrite Hother; [apply lookup_insert_eq|].
    intros Hin. apply list_elem_of_fmap in Hin as (r' & Heq & Hr').
    apply Hfresh. apply file_of_inj in Heq. rewrite Heq.
    by apply list_elem_of_fmap_2.
Qed.

(** The loop over a list in two parts. *)
Lemma write_pages_app (before after : list Entry) (fs : FS) :
  write_pages output_dir ext (before ++ after) fs =
  match write_pages output_dir ext before fs with
  | (Ok s1, fs1, l1) =>
      match write_pages output_dir ext after fs1 with
      | (Ok s2, fs2, l2) => (Ok (s1 ++ s2), fs2, l1 ++ l2)
      | (Raised e, fs2, l2) => (Raised e, fs2, l1 ++ l2)
      end
  | (Raised e, fs1, l1) => (Raised e, fs1, l1)
  end.
Proof.
  revert fs. induction before as [|r before IH]; intros fs.
  - cbn. by destruct (write_pages _ _ after fs) as [[[s2|e] fs2] l2].
  - rewrite <- app_comm_cons, !write_pages_cons.
    destruct (node_at fs (file_of r)) as [[|c]|]; [done | |];
      (destruct (node_at fs output_dir) as [[|c']|]; [|done..];
       destruct (entry_data r) as [b|]; [|done];
       rewrite IH;
       destruct (write_pages _ _ before _) as [[[s1|e1] fs1] l1]; [|done];
       by destruct (write_pages _ _ after fs1) as [[[s2|e2] fs2] l2]).
Qed.

(** The loop prints nothing, however it ends. *)
Lemma write_pages_silent (rs : list Entry) (fs fs' : FS) (r : result (list path))
    (l : list Msg) :
  write_pages output_dir ext rs fs = (r, fs', l) → l = [].
Proof.
  revert fs fs' r l. induction rs as [|r0 rs IH]; intros fs fs' r l H.
  - by injection H as <- <- <-.
  - rewrite write_pages_cons in H.
    destruct (node_at fs (file_of r0)) as [[|c]|];
      [by injection H | |];
      (destruct (node_at fs output_dir) as [[|c']|]; [|by injection H..];
       destruct (entry_data r0) as [b|]; [|by injection H];
       destruct (write_pages _ _ rs _) as [[[s1|e1] fs1] l1] eqn:Ew;
       apply IH in Ew; by injection H as <- <- <-).
Qed.

(** The loop writes files only: what is a directory stays one, and
    directories are not created. *)
Lemma write_pages_dirs (rs : list Entry) (fs fs' : FS) (r : result (list path))
    (l : list Msg) (p : path) :
  write_pages output_dir ext rs fs = (r, fs', l) →
  node_at fs' p = Some Dir ↔ node_at fs p = Some Dir.
Proof.
  assert (∀ (fs0 : FS) q c, node_at fs0 q ≠ Some Dir →
            node_at (<[q := File c]> fs0) p = Some Dir ↔ node_at fs0 p = Some Dir) as Hins.
  { intros fs0 q c Hq. destruct (decide (q = p)) as [->|Hne].
    - destruct p as [|s p]; [done|]. simpl in *. rewrite lookup_insert_eq.
      split; [done | by intros ?].
    - by rewrite PathFacts.node_at_insert_ne. }
  revert fs fs' r l. induction rs as [|r0 rs IH]; intros fs fs' r l H.
  - by injection H as <- <- <-.
  - rewrite write_pages_cons in H.
    destruct (node_at fs (file_of r0)) as [[|c]|] eqn:Ef;
      [by injection H as <- <- <- | |];
      (destruct (node_at fs output_dir) as [[|c']|]; [|by injection H as <- <- <-..];
       destruct (entry_data r0) as [b|];
         [|injection H as <- <- <-; apply Hins; by rewrite Ef];
       destruct (write_pages _ _ rs _) as [[[s1|e1] fs1] l1] eqn:Ew;
       apply IH in Ew; injection H as <- <- <-;
       rewrite Ew; apply Hins; by rewrite Ef).
Qed.

End WriteLoop.

(** ** The ordering pass *)

Module SortFacts.

Lemma insert_by_page_perm (r : Entry) (l : list Entry) :
  insert_by_page r l ≡ₚ r :: l.
Proof.
  induction l as [|x l IH]; simpl; [done|].
  destruct (entry_page r <=? entry_page x)%nat; [done|].
  rewrite IH. apply Permutation_swap.
Qed.

Lemma sort_by_page_perm (l : list Entry) : sort_by_page l ≡ₚ l.
Proof.
  induction l as [|r l IH]; simpl; [done|].
  by rewrite insert_by_page_perm, IH.
Qed.

Lemma insert_by_page_sorted (r : Entry) (l : list Entry) :
  StronglySorted le_page l → StronglySorted le_page (insert_by_page r l).
Proof.
  induction 1 as [|x l Hl IH Hx]; simpl.
  - repeat constructor.
  - destruct (entry_page r <=? entry_page x)%nat eqn:E.
    + apply Nat.leb_le in E. constructor; [by constructor|].
      constructor; [done|].
      eapply Forall_impl; [exact Hx|]. unfold le_page. intros y Hy. simpl in Hy. lia.
    + apply Nat.leb_gt in E. constructor; [done|].
      rewrite insert_by_page_perm. constructor; [|done]. unfold le_page. lia.
Qed.

Lemma sort_by_page_sorted (l : list Entry) : StronglySorted le_page (sort_by_page l).
Proof.
  induction l as [|r l IH]; simpl; [constructor|].
  by apply insert_by_page_sorted.
Qed.

Lemma ascending_le (l : list Entry) : ascending l → StronglySorted le_page l.
Proof.
  induction 1 as [|x l Hl IH Hx]; constructor; [done|].
  eapply Forall_impl; [exact Hx|]. unfold le_page. intros y Hy. simpl in Hy. lia.
Qed.

(** In an ascending list the page number identifies the entry. *)
Lemma ascending_page_inj (l : list Entry) (x y : Entry) :
  ascending l → x ∈ l → y ∈ l → entry_page x = entry_page y → x = y.
Proof.
  induction 1 as [|z l Hl IH Hz]; intros Hx Hy E.
  - by apply elem_of_nil in Hx.
  - rewrite Forall_forall in Hz.
    apply elem_of_cons in Hx as [-> | Hx]; apply elem_of_cons in Hy as [-> | Hy].
    + done.
    + apply Hz in Hy. lia.
    + apply Hz in Hx. lia.
    + by apply IH.
Qed.

Lemma ascending_NoDup (l : list Entry) : ascending l → NoDup (entry_page <$> l).
Proof.
  induction 1 as [|z l Hl IH Hz]; [constructor|].
  rewrite fmap_cons. apply NoDup_cons. split; [|done].
  intros Hin. apply list_elem_of_fmap in Hin as (y & E & Hy).
  rewrite Forall_forall in Hz. apply Hz in Hy. lia.
Qed.

(** Sorting any arrangement of an ascending list gives that list back. *)
Lemma sort_by_page_unique (l l0 : list Entry) :
  ascending l0 → l ≡ₚ l0 → sort_by_page l = l0.
Proof.
  intros Hasc Hperm.
  apply (StronglySorted_unique_strong le_page).
  - intros x1 x2 H1 H2 Hle1 Hle2. unfold le_page in *.
    rewrite sort_by_page_perm, Hperm in H1.
    apply (ascending_page_inj l0); [done.. | lia].
  - apply sort_by_page_sorted.
  - by apply ascending_le.
  - by rewrite sort_by_page_perm.
Qed.

End SortFacts.

(** ** Rendering and collection *)

Section Rendering.

Variable fitz_open : option node → string + Document.
Variable sched : Scheduler.

Lemma collect_omap (fs : FS) (completed : list Task) :
  collect fitz_open fs completed =
  (omap (keep_of fitz_open fs) completed, omap (line_of fitz_open fs) completed).
Proof.
  induction completed as [|t rest IH]; [done|].
  cbn [collect omap list_omap]. rewrite IH. unfold keep_of, line_of.
  destruct (convert_page fitz_open fs t) as [[[page_num img_data] ext] error].
  cbn. by destruct (truthy_error error).
Qed.

(** What [convert_page] returns for a page of a document that opens. *)
Lemma convert_page_doc (fs : FS) (doc : Document) (pdf_path : path) (i : nat)
    (dpi : Z) (img_format : string) (quality : Z) :
  fitz_open (node_at fs pdf_path) = inr doc →
  convert_page fitz_open fs (pdf_path, i, dpi, img_format, quality) =
  match render doc i dpi (encoding_of img_format quality) with
  | inr d => (i, Some d, Some (ext_of img_format), None)
  | inl e => (i, None, None, Some e)
  end.
Proof.
  intros H. unfold convert_page, encoding_of, ext_of. rewrite H.
  by destruct (String.eqb _ _).
Qed.

Lemma keep_of_doc (fs : FS) (doc : Document) (pdf_path : path) (i : nat)
    (dpi : Z) (img_format : string) (quality : Z) :
  fitz_open (node_at fs pdf_path) = inr doc →
  keep_of fitz_open fs (pdf_path, i, dpi, img_format, quality) =
  kept doc dpi img_format quality i.
Proof.
  intros H. unfold keep_of, kept. rewrite (convert_page_doc _ doc) by done.
  destruct (render doc i dpi _) as [e|d]; cbn; [|done].
  by destruct (Str.truthy e).
Qed.

Lemma line_of_doc (fs : FS) (doc : Document) (pdf_path : path) (i : nat)
    (dpi : Z) (img_format : string) (quality : Z) :
  fitz_open (node_at fs pdf_path) = inr doc →
  line_of fitz_open fs (pdf_path, i, dpi, img_format, quality) =
  failure_line doc dpi img_format quality i.
Proof.
  intros H. unfold line_of, failure_line. rewrite (convert_page_doc _ doc) by done.
  destruct (render doc i dpi _) as [e|d]; cbn; [|done].
  by destruct (Str.truthy e).
Qed.

(** The kept entries of consecutive pages are in ascending page order. *)
Lemma kept_ascending (doc : Document) (dpi : Z) (img_format : string)
    (quality : Z) (a n : nat) :
  ascending (omap (kept doc dpi img_format quality) (seq a n)) ∧
  Forall (λ r, a ≤ entry_page r)%nat (omap (kept doc dpi img_format quality) (seq a n)).
Proof.
  revert a. induction n as [|n IH]; intros a; cbn [seq omap list_omap].
  { split; constructor. }
  destruct (IH (S a)) as [Hasc Hge].
  assert (Forall (λ r, a < entry_page r)%nat
            (omap (kept doc dpi img_format quality) (seq (S a) n))) as Hgt.
  { eapply Forall_impl; [exact Hge|]. intros r Hr. simpl in Hr. lia. }
  destruct (kept doc dpi img_format quality a) as [r|] eqn:Ek.
  - assert (entry_page r = a) as Hr.
    { unfold kept in Ek. destruct (render doc a dpi _) as [e|d].
      - destruct (Str.truthy e); [done|]. by injection Ek as <-.
      - by injection Ek as <-. }
    split.
    + constructor; [done|]. by rewrite Hr.
    + constructor; [lia|]. eapply Forall_impl; [exact Hgt|]. intros r' Hr'. simpl in Hr'. lia.
  - split; [done|]. eapply Forall_impl; [exact Hgt|]. intros r' Hr'. simpl in Hr'. lia.
Qed.

(** The pool stage: a worker count that is not positive or beyond the
    platform's limit is refused; otherwise the sorted results are the kept
    entries in page order, whatever the completion order, and the lines
    printed are the failure lines in completion order. *)
Lemma render_all_run (num_workers : option Z) (tasks : list Task) (fs : FS) :
  render_all fitz_open sched num_workers tasks fs =
  match num_workers with
  | Some w =>
      if (w <=? 0)%Z then (Raised ValueError, fs, [])
      else
        match pool_limit sched w with
        | Some e => (Raised e, fs, [])
        | None =>
            (Ok (sort_by_page (omap (keep_of fitz_open fs) (as_completed sched num_workers tasks))),
             fs, omap (line_of fitz_open fs) (as_completed sched num_workers tasks))
        end
  | None =>
      (Ok (sort_by_page (omap (keep_of fitz_open fs) (as_completed sched num_workers tasks))),
       fs, omap (line_of fitz_open fs) (as_completed sched num_workers tasks))
  end.
Proof.
  unfold render_all, process_pool. rewrite bind_run.
  destruct num_workers as [w|];
    [destruct (w <=? 0)%Z; [done|]; destruct (pool_limit sched w); [done|] |];
    cbn; repeat (rewrite bind_run; cbn); rewrite collect_omap; cbn;
    repeat (rewrite bind_run; cbn); by rewrite ?app_nil_r.
Qed.

(** Every page index is completed once. *)
Lemma completion_order_perm (num_workers : option Z) (pdf_path : path) (n : nat)
    (dpi : Z) (img_format : string) (quality : Z) :
  completion_order sched num_workers pdf_path n dpi img_format quality ≡ₚ seq 0 n.
Proof.
  unfold completion_order. rewrite as_completed_perm. unfold make_tasks.
  rewrite <- list_fmap_compose. by rewrite list_fmap_id.
Qed.

(** The failure lines of the pages, in whatever order, are those of the
    pages in page order, rearranged. *)
Lemma failure_lines_perm (doc : Document) (dpi : Z) (img_format : string)
    (quality : Z) (num_workers : option Z) (pdf_path : path) :
  omap (failure_line doc dpi img_format quality)
    (completion_order sched num_workers pdf_path (num_pages doc) dpi img_format quality)
  ≡ₚ omap (failure_line doc dpi img_format quality) (seq 0 (num_pages doc)).
Proof. by rewrite completion_order_perm. Qed.

(** The lines the loop prints are the failure lines of the pages in the
    order in which their tasks complete. *)
Lemma lines_in_completion_order (num_workers : option Z) (fs : FS) (doc : Document)
    (pdf_path : path) (dpi : Z) (img_format : string) (quality : Z) :
  fitz_open (node_at fs pdf_path) = inr doc →
  omap (line_of fitz_open fs)
    (as_completed sched num_workers
       (make_tasks pdf_path (num_pages doc) dpi img_format quality))
  = omap (failure_line doc dpi img_format quality)
      (completion_order sched num_workers pdf_path (num_pages doc) dpi img_format quality).
Proof.
  intros Hdoc. unfold completion_order.
  set (tasks := make_tasks _ _ _ _ _).
  assert (∀ t, t ∈ as_completed sched num_workers tasks → t ∈ tasks) as Hin.
  { intros t Ht. by rewrite <- (as_completed_perm sched num_workers tasks). }
  induction (as_completed sched num_workers tasks) as [|t l IH]; [done|].
  rewrite fmap_cons. cbn [omap list_omap].
  rewrite IH by (intros t' Ht'; apply Hin; by apply list_elem_of_further).
  assert (t ∈ tasks) as Ht by apply Hin, list_elem_of_here.
  apply list_elem_of_fmap in Ht as (i & -> & _).
  by rewrite (line_of_doc _ doc).
Qed.

(** With a worker count the pool accepts, the stage gives the kept
    entries in page order, whatever the completion order, and prints the
    failure lines in completion order. *)
Lemma render_all_order (num_workers : option Z) (fs : FS) (doc : Document)
    (pdf_path : path) (dpi : Z) (img_format : string) (quality : Z) :
  fitz_open (node_at fs pdf_path) = inr doc →
  pool_accepts sched num_workers →
  render_all fitz_open sched num_workers
    (make_tasks pdf_path (num_pages doc) dpi img_format quality) fs
  = (Ok (omap (kept doc dpi img_format quality) (seq 0 (num_pages doc))), fs,
     omap (failure_line doc dpi img_format quality)
       (completion_order sched num_workers pdf_path (num_pages doc) dpi img_format quality)).
Proof.
  intros Hdoc Hpool. rewrite render_all_run, (lines_in_completion_order _ _ doc) by done.
  set (tasks := make_tasks _ _ _ _ _).
  set (completed := as_completed sched num_workers tasks).
  assert (completed ≡ₚ tasks) as Hperm by apply as_completed_perm.
  assert (omap (keep_of fitz_open fs) tasks
          = omap (kept doc dpi img_format quality) (seq 0 (num_pages doc))) as Hkeep.
  { unfold tasks, make_tasks. generalize (seq 0 (num_pages doc)) as l.
    induction l as [|i l IH]; [done|].
    rewrite fmap_cons. cbn [omap list_omap]. by rewrite IH, (keep_of_doc _ doc). }
  assert (sort_by_page (omap (keep_of fitz_open fs) completed)
          = omap (kept doc dpi img_format quality) (seq 0 (num_pages doc))) as ->.
  { apply SortFacts.sort_by_page_unique; [apply kept_ascending|].
    by rewrite Hperm, Hkeep. }
  destruct num_workers as [w|]; [|done].
  destruct Hpool as [Hpos ->]. by destruct (Z.leb_spec w 0); [lia|].
Qed.

Lemma render_all_doc (num_workers : option Z) (fs : FS) (doc : Document)
    (pdf_path : path) (dpi : Z) (img_format : string) (quality : Z) :
  fitz_open (node_at fs pdf_path) = inr doc →
  pool_accepts sched num_workers →
  ∃ printed,
    render_all fitz_open sched num_workers
      (make_tasks pdf_path (num_pages doc) dpi img_format quality) fs
    = (Ok (omap (kept doc dpi img_format quality) (seq 0 (num_pages doc))), fs, printed) ∧
    printed ≡ₚ omap (failure_line doc dpi img_format quality) (seq 0 (num_pages doc)).
Proof.
  intros Hdoc Hpool. eexists. split; [by apply render_all_order|].
  apply failure_lines_perm.
Qed.

End Rendering.

(** ** The archive *)

Lemma zip_write_all_files (fs : FS) (files : list path) :
  Forall (λ f, ∃ c, node_at fs f = Some (File c)) files →
  ∃ members,
    zip_write_all fs files = (members, None) ∧
    Forall2 (λ f m, m.1 = Path.name f ∧ node_at fs f = Some (File m.2)) files members.
Proof.
  induction 1 as [|f files [c Hc] _ (members & Hrun & Hall)].
  - exists []. by split; [|constructor].
  - exists ((Path.name f, c) :: members). cbn [zip_write_all].
    rewrite Hc, Hrun. split; [done|]. by constructor.
Qed.

Lemma write_zip_run (zip_path : path) (saved_files : list path) (fs : FS) :
  write_zip zip_path saved_files fs =
  match node_at fs zip_path with
  | Some Dir => (Raised (IsADirectoryError zip_path), fs, [])
  | _ =>
      match node_at fs (Path.parent zip_path) with
      | Some Dir =>
          let written := zip_write_all (<[zip_path := File (Zip [])]> fs) saved_files in
          (match written.2 with Some e => Raised e | None => Ok tt end,
           <[zip_path := File (Zip written.1)]> fs, [])
      | Some (File _) => (Raised (NotADirectoryError zip_path), fs, [])
      | None => (Raised (FileNotFoundError zip_path), fs, [])
      end
  end.
Proof.
  unfold write_zip. rewrite bind_run, open_w_run.
  destruct (node_at fs zip_path) as [[|c]|]; [done | |];
    (destruct (node_at fs (Path.parent zip_path)) as [[|c']|]; [|done..];
     repeat (rewrite bind_run; cbn); rewrite insert_insert_eq;
     by destruct (zip_write_all _ _).2).
Qed.

Lemma make_zip_run (pdf_path output_dir : path) (create_zip : bool)
    (saved_files : list path) (fs : FS) :
  make_zip pdf_path output_dir create_zip saved_files fs =
  if create_zip && negb (bool_decide (saved_files = [])) then
    match write_zip (zip_path_of pdf_path) saved_files fs with
    | (Ok _, fs', l) =>
        (Ok tt, fs', MsgZipStart :: l ++ [MsgZipDone (zip_path_of pdf_path); MsgKeepDir output_dir])
    | (Raised e, fs', l) => (Raised e, fs', MsgZipStart :: l)
    end
  else (Ok tt, fs, []).
Proof.
  unfold make_zip. fold (zip_path_of pdf_path).
  destruct (create_zip && _); [|done].
  repeat (rewrite bind_run; cbn).
  destruct (write_zip _ _ fs) as [[[[]|e] fs'] l]; [|done].
  by repeat (rewrite bind_run; cbn).
Qed.

Lemma write_zip_silent (zip_path : path) (saved_files : list path) (fs fs' : FS)
    (r : result unit) (l : list Msg) :
  write_zip zip_path saved_files fs = (r, fs', l) → l = [].
Proof.
  rewrite write_zip_run. intros H.
  destruct (node_at fs zip_path) as [[|c]|]; [by injection H | |];
    (destruct (node_at fs (Path.parent zip_path)) as [[|c']|]; cbn in H;
     by injection H).
Qed.

(** An archive stage that fails printed its announcement and nothing
    more. *)
Lemma make_zip_raised_log (pdf_path output_dir : path) (create_zip : bool)
    (saved_files : list path) (fs fs' : FS) (e : exn) (l : list Msg) :
  make_zip pdf_path output_dir create_zip saved_files fs = (Raised e, fs', l) →
  l = [MsgZipStart].
Proof.
  rewrite make_zip_run. intros H.
  destruct (create_zip && _); [|done].
  destruct (write_zip _ _ fs) as [[[[]|e0] fs0] l0] eqn:Ew; [done|].
  apply write_zip_silent in Ew as ->. by injection H.
Qed.

(** The archive stage touches the archive path only, however it ends. *)
Lemma make_zip_other (pdf_path output_dir : path) (create_zip : bool)
    (saved_files : list path) (fs fs' : FS) (r : result unit) (l : list Msg) (p : path) :
  make_zip pdf_path output_dir create_zip saved_files fs = (r, fs', l) →
  p ≠ zip_path_of pdf_path → node_at fs' p = node_at fs p.
Proof.
  rewrite make_zip_run, write_zip_run. intros H Hp.
  destruct (create_zip && _); [|by injection H as <- <- <-].
  destruct (node_at fs (zip_path_of pdf_path)) as [[|c]|];
    [by injection H as <- <- <- | |];
    (destruct (node_at fs (Path.parent (zip_path_of pdf_path))) as [[|c']|];
     cbn in H; [|by injection H as <- <- <-..];
     destruct (zip_write_all _ _).2; injection H as <- <- <-;
     by apply PathFacts.node_at_insert_ne).
Qed.

(** The stage is skipped when archiving is off or nothing was saved. *)
Lemma make_zip_skip (pdf_path output_dir : path) (create_zip : bool)
    (saved_files : list path) (fs : FS) :
  create_zip = false ∨ saved_files = [] →
  make_zip pdf_path output_dir create_zip saved_files fs = (Ok tt, fs, []).
Proof.
  intros [-> | ->]; rewrite make_zip_run; [done|].
  by rewrite andb_comm.
Qed.

(** A stage that ran and succeeded left an archive with one member per
    saved file, in the order of the list, named by the file's base name and
    holding the file's content. *)
Lemma make_zip_ok_inv (pdf_path output_dir : path) (saved_files : list path)
    (fs fs' : FS) (l : list Msg) :
  make_zip pdf_path output_dir true saved_files fs = (Ok tt, fs', l) →
  saved_files ≠ [] →
  Forall (λ f, f ≠ zip_path_of pdf_path ∧ ∃ c, node_at fs f = Some (File c)) saved_files →
  ∃ members,
    node_at fs' (zip_path_of pdf_path) = Some (File (Zip members)) ∧
    Forall2 (λ f m, m.1 = Path.name f ∧ node_at fs' f = Some (File m.2))
      saved_files members.
Proof.
  intros H Hne Hfiles. rewrite make_zip_run, write_zip_run in H.
  rewrite bool_decide_eq_false_2 in H by done. cbn [andb negb] in H.
  set (zip := zip_path_of pdf_path) in *.
  assert (zip ≠ []) as Hzip by apply PathFacts.join_not_nil.
  destruct (zip_write_all_files (<[zip := File (Zip [])]> fs) saved_files)
    as (members & Hrun & Hall).
  { eapply Forall_impl; [exact Hfiles|]. intros f [Hf [c Hc]].
    exists c. by rewrite PathFacts.node_at_insert_ne. }
  rewrite Hrun in H. cbn in H.
  assert (fs' = <[zip := File (Zip members)]> fs) as ->.
  { destruct (node_at fs zip) as [[|c]|]; [done | |];
      (destruct (node_at fs (Path.parent zip)) as [[|c']|]; [|done..];
       by injection H as <- <-). }
  exists members. split; [by apply PathFacts.node_at_insert_eq|].
  clear H Hrun Hne. generalize (File (Zip members)) as final. intros final.
  induction Hall as [|f m files ms [Hn Hc] Hall IH]; [constructor|].
  apply Forall_cons in Hfiles as [[Hf _] Hfiles].
  constructor; [|by apply IH].
  split; [done|].
  by rewrite PathFacts.node_at_insert_ne in Hc |- * by done.
Qed.

(** The archive never has the name of a page file. *)
Lemma page_file_not_zip (pdf_path output_dir : path) (img_format : string) (i : nat) :
  page_file output_dir img_format i ≠ zip_path_of pdf_path.
Proof.
  unfold page_file, zip_path_of. intros E.
  apply PathFacts.join_inj in E as [_ E].
  apply (f_equal Str.last_char) in E.
  rewrite page_filename_last, StrFacts.last_char_app in E; [| done |].
  - unfold ext_of in E. by destruct (String.eqb _ _).
  - unfold ext_of. by destruct (String.eqb _ _).
Qed.

(** A successful archive stage leaves directories in place. *)
Lemma make_zip_ok_dir (pdf_path output_dir : path) (create_zip : bool)
    (saved_files : list path) (fs fs' : FS) (l : list Msg) (p : path) :
  make_zip pdf_path output_dir create_zip saved_files fs = (Ok tt, fs', l) →
  node_at fs p = Some Dir → node_at fs' p = Some Dir.
Proof.
  intros H Hp. destruct (decide (p = zip_path_of pdf_path)) as [->|Hne].
  - rewrite make_zip_run, write_zip_run, Hp in H.
    destruct (create_zip && _); [done|]. by injection H as <- <-.
  - by rewrite (make_zip_other _ _ _ _ _ _ _ _ _ H).
Qed.

(** ** The whole conversion, stage by stage *)

Section Pipeline.

Variable fitz_open : option node → string + Document.
Variable cpu_count : option Z.
Variable sched : Scheduler.

Local Abbreviation convert := (convert_pdf_to_images fitz_open cpu_count sched).

Lemma load_info_run (pdf_path : path) (img_format : string) (dpi quality : Z)
    (num_workers : option Z) (fs : FS) :
  load_info fitz_open cpu_count pdf_path img_format dpi quality num_workers fs =
  match fitz_open (node_at fs pdf_path) with
  | inr doc =>
      (Ok (inr (num_pages doc)), fs,
       info_lines cpu_count pdf_path (num_pages doc) img_format dpi quality num_workers)
  | inl e => (Ok (inl e), fs, [])
  end.
Proof.
  unfold load_info, info_lines. rewrite bind_run. cbn.
  destruct (fitz_open _); [done|].
  repeat (rewrite bind_run; cbn). by destruct (String.eqb _ _).
Qed.

Ltac by_log :=
  first [ reflexivity
        | f_equal; unfold info_lines; simpl; rewrite <- ?app_assoc; reflexivity ].

Lemma convert_run (pdf_path : path) (output_dir : option path) (img_format : string)
    (dpi quality : Z) (create_zip : bool) (num_workers : option Z) (fs : FS) :
  convert pdf_path output_dir img_format dpi quality create_zip num_workers fs =
  match node_at fs pdf_path with
  | None => (Ok false, fs, [MsgFileNotFound pdf_path])
  | Some _ =>
    let out := output_dir_of pdf_path output_dir in
    match mkdir_exist_ok out fs with
    | (Raised e, fs1, l1) => (Raised e, fs1, l1)
    | (Ok _, fs1, l1) =>
      match fitz_open (node_at fs1 pdf_path) with
      | inl e => (Ok false, fs1, l1 ++ [MsgOpenFailed e])
      | inr doc =>
        let n := num_pages doc in
        let info := info_lines cpu_count pdf_path n img_format dpi quality num_workers in
        match render_all fitz_open sched (pool_workers cpu_count num_workers)
                (make_tasks pdf_path n dpi img_format quality) fs1 with
        | (Raised e, fs2, l2) => (Raised e, fs2, l1 ++ info ++ l2)
        | (Ok results, fs2, l2) =>
          match save_images out results fs2 with
          | (Raised e, fs3, l3) => (Raised e, fs3, l1 ++ info ++ l2 ++ l3)
          | (Ok saved, fs3, l3) =>
            match make_zip pdf_path out create_zip saved fs3 with
            | (r, fs4, l4) =>
              (match r with Ok _ => Ok true | Raised e => Raised e end, fs4,
               l1 ++ info ++ l2 ++ l3 ++
               MsgConverted (length saved) :: MsgSavedTo out :: l4)
            end
          end
        end
      end
    end
  end.
Proof.
  unfold convert_pdf_to_images, pool_workers. rewrite bind_run. unfold path_exists at 1.
  rewrite bind_run. cbn.
  destruct (node_at fs pdf_path) as [nd|] eqn:E.
  - rewrite bool_decide_eq_true_2 by eauto. cbn.
    rewrite bind_run. destruct (mkdir_exist_ok _ fs) as [[[[]|e] fs1] l1]; [|done].
    rewrite bind_run, load_info_run.
    destruct (fitz_open (node_at fs1 pdf_path)) as [e|doc].
    + rewrite bind_run. cbn. done.
    + rewrite bind_run. destruct (render_all _ _ _ _ fs1) as [[[results|e] fs2] l2].
      2:{ by_log. }
      rewrite bind_run. destruct (save_images _ _ fs2) as [[[saved|e] fs3] l3].
      2:{ by_log. }
      repeat (rewrite bind_run; cbn).
      destruct (make_zip _ _ _ _ fs3) as [[[[]|e] fs4] l4]; cbn.
      * rewrite ?app_nil_r. by_log.
      * by_log.
  - rewrite bool_decide_eq_false_2; [done|]. by intros [? ?].
Qed.

(** When every kept entry carries bytes, the kept entries are the entries
    of the rendered pages and every failure has a truthy message. *)
Lemma kept_with_data (doc : Document) (dpi : Z) (img_format : string)
    (quality : Z) (l : list nat) :
  Forall (λ r, is_Some (entry_data r)) (omap (kept doc dpi img_format quality) l) →
  omap (kept doc dpi img_format quality) l
    = success_entry img_format <$> omap (rendered_page doc dpi img_format quality) l ∧
  ∀ i e, i ∈ l → render doc i dpi (encoding_of img_format quality) = inl e →
         Str.truthy e = true.
Proof.
  induction l as [|i l IH]; cbn [omap list_omap]; intros H.
  { split; [done|]. intros i e Hi. by apply elem_of_nil in Hi. }
  unfold kept at 1, rendered_page at 1. unfold kept at 1 in H.
  destruct (render doc i dpi _) as [e|d] eqn:Er.
  - destruct (Str.truthy e) eqn:Et.
    + destruct (IH H) as [-> Hall]. split; [done|].
      intros j e' Hj Hr. apply elem_of_cons in Hj as [-> | Hj]; [congruence | eauto].
    + apply Forall_cons in H as [[b Hb] _]. discriminate.
  - apply Forall_cons in H as [_ H]. destruct (IH H) as [-> Hall]. split; [done|].
    intros j e' Hj Hr. apply elem_of_cons in Hj as [-> | Hj]; [congruence | eauto].
Qed.

Lemma elem_of_rendered (doc : Document) (dpi : Z) (img_format : string)
    (quality : Z) (i : nat) (d : bytes) :
  (i, d) ∈ rendered doc dpi img_format quality ↔
  (i < num_pages doc)%nat ∧ render doc i dpi (encoding_of img_format quality) = inr d.
Proof.
  unfold rendered. rewrite list_elem_of_omap. unfold rendered_page. split.
  - intros (j & Hj & Hr). apply elem_of_seq in Hj.
    destruct (render doc j dpi _) as [e|d'] eqn:E; [done|].
    injection Hr as -> ->. split; [lia | done].
  - intros [Hi Hr]. exists i. rewrite Hr. split; [|done]. apply elem_of_seq. lia.
Qed.

(** Nothing of what is printed before the archive stage is the line that
    announces the archive. *)
Lemma info_lines_no_zip (pdf_path : path) (n : nat) (img_format : string)
    (dpi quality : Z) (num_workers : option Z) :
  MsgZipStart ∉ info_lines cpu_count pdf_path n img_format dpi quality num_workers.
Proof.
  unfold info_lines. destruct (String.eqb _ _); cbn;
    rewrite !not_elem_of_cons; split_and!; try done; apply not_elem_of_nil.
Qed.

Lemma failure_lines_no_zip (doc : Document) (dpi : Z) (img_format : string)
    (quality : Z) (l : list nat) :
  MsgZipStart ∉ omap (failure_line doc dpi img_format quality) l.
Proof.
  intros H. apply list_elem_of_omap in H as (i & _ & H).
  unfold failure_line in H. destruct (render doc i dpi _) as [e|d]; [|done].
  by destruct (Str.truthy e).
Qed.

Local Opaque info_lines.

(** What a run that reached the archive stage went through. *)
Lemma convert_archive_stage (pdf_path : path) (output_dir : option path)
    (img_format : string) (dpi quality : Z) (create_zip : bool)
    (num_workers : option Z) (fs fs' : FS) (r : result bool) (log : list Msg) :
  convert pdf_path output_dir img_format dpi quality create_zip num_workers fs
    = (r, fs', log) →
  reached_archive r log →
  let out := output_dir_of pdf_path output_dir in
  ∃ doc fs1 fs3 printed rz lz,
    let pages := rendered doc dpi img_format quality in
    let saved := (λ p, page_file out img_format p.1) <$> pages in
    is_Some (node_at fs pdf_path) ∧
    fitz_open (node_at fs pdf_path) = inr doc ∧
    mkdir_exist_ok out fs = (Ok tt, fs1, []) ∧
    pool_accepts sched (pool_workers cpu_count num_workers) ∧
    printed = omap (failure_line doc dpi img_format quality)
                (completion_order sched (pool_workers cpu_count num_workers) pdf_path
                   (num_pages doc) dpi img_format quality) ∧
    (∀ i e, (i < num_pages doc)%nat →
            render doc i dpi (encoding_of img_format quality) = inl e →
            Str.truthy e = true) ∧
    write_pages out (Some (ext_of img_format)) (success_entry img_format <$> pages) fs1
      = (Ok saved, fs3, []) ∧
    make_zip pdf_path out create_zip saved fs3 = (rz, fs', lz) ∧
    r = match rz with Ok _ => Ok true | Raised e => Raised e end ∧
    log = info_lines cpu_count pdf_path (num_pages doc) img_format dpi quality num_workers
          ++ printed ++ MsgConverted (length pages) :: MsgSavedTo out :: lz.
Proof.
  rewrite convert_run. intros H Hreached out. cbn zeta in H. fold out in H.
  destruct (node_at fs pdf_path) as [nd|] eqn:Epdf.
  2:{ injection H as <- <- <-. by destruct Hreached as [? | [[e ?] _]]. }
  destruct (mkdir_exist_ok _ fs) as [[[[]|e] fs1] l1] eqn:Emk.
  2:{ injection H as <- <- <-. rewrite mkdir_run in Emk.
      destruct Hreached as [? | [_ Hin]]; [done|].
      destruct (node_at fs out) as [[|c]|];
        [done | by injection Emk as <- <- <-; apply elem_of_nil in Hin |].
      destruct (node_at fs (Path.parent out)) as [[|c]|]; [done | |];
        injection Emk as <- <- <-; by apply elem_of_nil in Hin. }
  pose proof (mkdir_keeps _ pdf_path _ _ _ Emk) as Hkeep.
  rewrite Epdf in Hkeep. specialize (Hkeep (ltac:(eauto))).
  pose proof (mkdir_ok_inv _ _ _ _ Emk) as (-> & _ & _).
  destruct (fitz_open (node_at fs1 pdf_path)) as [e|doc] eqn:Eopen.
  { injection H as <- <- <-. by destruct Hreached as [? | [[e' ?] _]]. }
  cbn zeta in H.
  assert (pool_accepts sched (pool_workers cpu_count num_workers)) as Hpool.
  { rewrite render_all_run in H.
    destruct (pool_workers cpu_count num_workers) as [w|]; [|done].
    simpl. destruct (Z.leb_spec w 0).
    { injection H as <- <- <-. destruct Hreached as [? | [_ Hin]]; [done|].
      rewrite ?app_nil_l, ?app_nil_r in Hin. by apply info_lines_no_zip in Hin. }
    destruct (pool_limit sched w) as [e|]; [|split; [lia | done]].
    injection H as <- <- <-. destruct Hreached as [? | [_ Hin]]; [done|].
    rewrite ?app_nil_l, ?app_nil_r in Hin. by apply info_lines_no_zip in Hin. }
  pose proof (render_all_order fitz_open sched _ fs1 doc pdf_path dpi img_format quality
                Eopen Hpool) as Hrun.
  set (printed := omap (failure_line doc dpi img_format quality) _) in Hrun.
  pose proof (failure_lines_perm sched doc dpi img_format quality
                (pool_workers cpu_count num_workers) pdf_path) as Hprinted.
  fold printed in Hprinted.
  rewrite Hrun in H.
  destruct (save_images _ _ fs1) as [[[saved|e] fs3] l3] eqn:Esave.
  2:{ injection H as <- <- <-. unfold save_images in Esave.
      apply write_pages_silent in Esave as ->.
      destruct Hreached as [? | [_ Hin]]; [done|].
      rewrite ?app_nil_l, ?app_nil_r in Hin. apply elem_of_app in Hin as [Hin | Hin].
      - by apply info_lines_no_zip in Hin.
      - rewrite Hprinted in Hin. by apply failure_lines_no_zip in Hin. }
  destruct (make_zip _ _ _ _ fs3) as [[rz fs4] l4] eqn:Ezip.
  injection H as <- <- <-.
  unfold save_images in Esave.
  pose proof (write_pages_ok_inv _ _ _ _ _ _ _ Esave) as (-> & -> & _ & Hdata & _).
  apply kept_with_data in Hdata as [Hkept Htruthy].
  rewrite Hkept in Esave, Ezip |- *.
  fold (rendered doc dpi img_format quality) in *.
  set (pages := rendered doc dpi img_format quality) in *.
  assert (match success_entry img_format <$> pages with
          | r :: _ => entry_ext r
          | [] => Some "jpg"
          end = Some (ext_of img_format) ∨ pages = []) as Hext.
  { destruct pages; [by right | by left]. }
  assert (write_pages out (Some (ext_of img_format)) (success_entry img_format <$> pages) fs1
          = (Ok ((λ p, page_file out img_format p.1) <$> pages), fs3, [])
          ∧ make_zip pdf_path out create_zip
              ((λ p, page_file out img_format p.1) <$> pages) fs3 = (rz, fs4, l4))
    as [Hw Hz].
  { destruct Hext as [Hext | Hnil].
    - rewrite Hext in Esave, Ezip. rewrite <- list_fmap_compose in Esave, Ezip.
      by split.
    - rewrite Hnil in Esave, Ezip |- *. cbn in Esave, Ezip |- *.
      injection Esave as <-. by split. }
  exists doc, fs1, fs3, printed, rz, l4. cbn zeta.
  rewrite Hkeep in Eopen. split_and!; try done.
  all: try (by eauto).
  - intros i e Hi. apply Htruthy, elem_of_seq. lia.
  - cbn. by rewrite !length_fmap.
Qed.

Local Transparent info_lines.

(** The pages written by the loop are on disk when the loop ends. *)
Lemma written_pages_on_disk (doc : Document) (dpi : Z) (img_format : string)
    (quality : Z) (out : path) (fs1 fs3 : FS) (saved : list path) :
  (∀ i e, (i < num_pages doc)%nat →
          render doc i dpi (encoding_of img_format quality) = inl e →
          Str.truthy e = true) →
  write_pages out (Some (ext_of img_format))
    (success_entry img_format <$> rendered doc dpi img_format quality) fs1
    = (Ok saved, fs3, []) →
  ∀ i d, (i, d) ∈ rendered doc dpi img_format quality →
         node_at fs3 (page_file out img_format i) = Some (File (Raw d)).
Proof.
  intros Htruthy Hw i d Hin.
  set (pages := rendered doc dpi img_format quality) in *.
  assert (NoDup (entry_page <$> (success_entry img_format <$> pages))) as Hnd.
  { pose proof (kept_ascending doc dpi img_format quality 0 (num_pages doc)) as [Hasc _].
    assert (omap (kept doc dpi img_format quality) (seq 0 (num_pages doc))
            = success_entry img_format <$> pages) as <-; [|by apply SortFacts.ascending_NoDup].
    apply kept_with_data.
    clear -Htruthy. unfold kept.
    apply Forall_forall. intros r Hr. apply list_elem_of_omap in Hr as (j & Hj & Hr).
    apply elem_of_seq in Hj.
    destruct (render doc j dpi _) as [e|d] eqn:Er.
    + rewrite (Htruthy j e) in Hr by (done || lia). done.
    + injection Hr as <-. by eexists. }
  destruct (write_pages_written _ _ _ _ _ _ _ Hw Hnd (success_entry img_format (i, d)))
    as (b & Hb & Hfile).
  { by apply (list_elem_of_fmap_2 (success_entry img_format)) in Hin. }
  unfold page_file. rewrite PathFacts.node_at_join. unfold file_of in Hfile.
  simpl in Hb, Hfile. injection Hb as <-. exact Hfile.
Qed.

(** Reaching the archive stage, every rendered page is in its file when the
    run ends, however the archive stage went. *)
Lemma archive_stage_pages (pdf_path : path) (output_dir : option path)
    (img_format : string) (dpi quality : Z) (create_zip : bool)
    (num_workers : option Z) (fs fs' : FS) (r : result bool) (log : list Msg) :
  convert pdf_path output_dir img_format dpi quality create_zip num_workers fs
    = (r, fs', log) →
  reached_archive r log →
  ∃ doc,
    is_Some (node_at fs pdf_path) ∧
    fitz_open (node_at fs pdf_path) = inr doc ∧
    ∀ i d, (i, d) ∈ rendered doc dpi img_format quality →
           node_at fs' (page_file (output_dir_of pdf_path output_dir) img_format i)
             = Some (File (Raw d)).
Proof.
  intros H Hreached.
  destruct (convert_archive_stage _ _ _ _ _ _ _ _ _ _ _ H Hreached)
    as (doc & fs1 & fs3 & printed & rz & lz & Hpdf & Hopen & Hmk & Hpool & Hprinted
        & Htruthy & Hw & Hz & _ & _).
  exists doc. split_and!; [done.. |]. intros i d Hin.
  rewrite (make_zip_other _ _ _ _ _ _ _ _ _ Hz) by apply page_file_not_zip.
  by eapply written_pages_on_disk.
Qed.

(** The members of the archive, from what [make_zip_ok_inv] gives. *)
Lemma members_of_pages (out : path) (img_format : string) (fs' : FS)
    (pages : list (nat * bytes)) (members : list (string * content)) :
  (∀ p, p ∈ pages → node_at fs' (page_file out img_format p.1) = Some (File (Raw p.2))) →
  Forall2 (λ f m, m.1 = Path.name f ∧ node_at fs' f = Some (File m.2))
    ((λ p, page_file out img_format p.1) <$> pages) members →
  members = page_member img_format <$> pages.
Proof.
  revert members. induction pages as [|p pages IH]; intros members Hfiles Hall.
  - by apply Forall2_nil_inv_l in Hall.
  - rewrite fmap_cons in Hall.
    apply Forall2_cons_inv_l in Hall as ([name c] & ms & [Hn Hc] & Hall & ->).
    rewrite fmap_cons. f_equal.
    + simpl in Hn, Hc. rewrite Hfiles in Hc by apply list_elem_of_here.
      unfold page_member. unfold page_file in Hn. rewrite PathFacts.name_join in Hn.
      congruence.
    + apply IH; [|done]. intros q Hq. apply Hfiles. by apply list_elem_of_further.
Qed.

(** The state a run that returns [True] leaves: the document opened, the
    output directory is a directory, every rendered page is in its file,
    every other page was reported, the archive (when made) lists the
    rendered pages in page order, and nothing else changed. *)
Lemma convert_true_state (pdf_path : path) (output_dir : option path)
    (img_format : string) (dpi quality : Z) (create_zip : bool)
    (num_workers : option Z) (fs fs' : FS) (log : list Msg) :
  convert pdf_path output_dir img_format dpi quality create_zip num_workers fs
    = (Ok true, fs', log) →
  let out := output_dir_of pdf_path output_dir in
  ∃ doc,
    let pages := rendered doc dpi img_format quality in
    let archived := create_zip && negb (bool_decide (pages = [])) in
    is_Some (node_at fs pdf_path) ∧
    fitz_open (node_at fs pdf_path) = inr doc ∧
    pool_accepts sched (pool_workers cpu_count num_workers) ∧
    node_at fs' out = Some Dir ∧
    (∀ i d, (i, d) ∈ pages →
            node_at fs' (page_file out img_format i) = Some (File (Raw d))) ∧
    (∀ i e, (i < num_pages doc)%nat →
            render doc i dpi (encoding_of img_format quality) = inl e →
            Str.truthy e = true ∧ MsgPageFailed (i + 1) e ∈ log) ∧
    (archived = true →
       node_at fs' (zip_path_of pdf_path)
         = Some (File (Zip (page_member img_format <$> pages)))) ∧
    (∀ p, p ≠ out →
          (archived = true → p ≠ zip_path_of pdf_path) →
          (∀ i d, (i, d) ∈ pages → p ≠ page_file out img_format i) →
          node_at fs' p = node_at fs p).
Proof.
  intros H out.
  pose proof (convert_archive_stage _ _ _ _ _ _ _ _ _ _ _ H (or_introl eq_refl))
    as (doc & fs1 & fs3 & printed & rz & lz & Hpdf & Hopen & Hmk & Hpool & Hprinted
        & Htruthy & Hw & Hz & Hrz & ->).
  destruct rz as [[]|e]; [clear Hrz | done].
  fold out in Hmk, Hw, Hz.
  set (pages := rendered doc dpi img_format quality) in *.
  set (saved := (λ p, page_file out img_format p.1) <$> pages) in *.
  exists doc. cbn zeta. fold pages.
  pose proof (mkdir_ok_inv _ _ _ _ Hmk) as (_ & Hdir1 & Hfs1).
  assert (node_at fs3 out = Some Dir) as Hdir3.
  { by rewrite (write_pages_dirs _ _ _ _ _ _ _ out Hw). }
  pose proof (written_pages_on_disk _ _ _ _ _ _ _ _ Htruthy Hw) as Hfiles3.
  fold pages in Hfiles3.
  assert (∀ i d, (i, d) ∈ pages →
            node_at fs' (page_file out img_format i) = Some (File (Raw d))) as Hfiles.
  { intros i d Hin.
    rewrite (make_zip_other _ _ _ _ _ _ _ _ _ Hz) by apply page_file_not_zip.
    by apply Hfiles3. }
  split_and!; try done.
  - by apply (make_zip_ok_dir _ _ _ _ _ _ _ _ Hz).
  - intros i e Hi Hr. split; [by eapply Htruthy|].
    apply elem_of_app. right. apply elem_of_app. left.
    rewrite Hprinted, failure_lines_perm. apply list_elem_of_omap. exists i.
    split; [apply elem_of_seq; lia|].
    unfold failure_line. rewrite Hr. by rewrite (Htruthy i e).
  - intros Harch. apply andb_true_iff in Harch as [-> Hne].
    apply negb_true_iff, bool_decide_eq_false in Hne.
    destruct (make_zip_ok_inv _ _ _ _ _ _ Hz) as (members & Hzip & Hall).
    + unfold saved. by destruct pages.
    + apply Forall_forall. intros f Hf.
      apply list_elem_of_fmap in Hf as ([i d] & -> & Hin).
      split; [apply page_file_not_zip|]. exists (Raw d). by apply Hfiles3.
    + rewrite Hzip. do 3 f_equal. eapply members_of_pages; [|exact Hall].
      intros [i d] Hin. by apply Hfiles.
  - intros p Hout Hzip Hpage.
    assert (node_at fs' p = node_at fs3 p) as ->.
    { destruct (create_zip && negb (bool_decide (pages = []))) eqn:Earch.
      - by rewrite (make_zip_other _ _ _ _ _ _ _ _ _ Hz) by auto.
      - rewrite make_zip_skip in Hz; [by injection Hz as <- |].
        apply andb_false_iff in Earch as [-> | Hnil]; [by left|]. right.
        apply negb_false_iff, bool_decide_eq_true in Hnil. unfold saved. by rewrite Hnil. }
    assert (node_at fs3 p = node_at fs1 p) as ->.
    { apply write_pages_ok_inv in Hw as (_ & _ & Hother & _).
      destruct p as [|s p]; [done|]. simpl. apply Hother.
      intros Hin.
      apply list_elem_of_fmap in Hin as ([i d] & Heq & Hin).
      by apply (Hpage i d Hin). }
    destruct Hfs1 as [-> | [_ ->]]; [done|].
    by apply PathFacts.node_at_insert_ne.
Qed.

End Pipeline.

(** ** A run that goes through *)

(** The write loop succeeds when the output directory is a directory, every
    entry carries bytes and no entry's file name is taken by a directory. *)
Lemma write_pages_progress (output_dir : path) (ext : option string)
    (rs : list Entry) (fs : FS) :
  node_at fs output_dir = Some Dir →
  Forall (λ r, is_Some (entry_data r) ∧
               node_at fs (file_of output_dir ext r) ≠ Some Dir) rs →
  ∃ fs', write_pages output_dir ext rs fs = (Ok (file_of output_dir ext <$> rs), fs', []).
Proof.
  revert fs. induction rs as [|r rs IH]; intros fs Hdir Hall.
  - by exists fs.
  - apply Forall_cons in Hall as [[[b Hb] Hfree] Hall].
    rewrite write_pages_cons, Hdir, Hb.
    destruct (IH (<[file_of output_dir ext r := File (Raw b)]> fs)) as (fs' & Hrun).
    + rewrite PathFacts.node_at_insert_ne; [done | apply PathFacts.join_ne].
    + eapply Forall_impl; [exact Hall|]. intros r' [Hd Hf]. split; [done|].
      destruct (decide (file_of output_dir ext r = file_of output_dir ext r')) as [E|E].
      * rewrite <- E, PathFacts.node_at_insert_eq by apply PathFacts.join_not_nil. done.
      * by rewrite PathFacts.node_at_insert_ne.
    + exists fs'. rewrite Hrun, fmap_cons.
      by destruct (node_at fs (file_of output_dir ext r)) as [[|c]|].
Qed.

Section Progress.

Variable fitz_open : option node → string + Document.
Variable cpu_count : option Z.
Variable sched : Scheduler.

(** When every failure has a truthy message, the kept entries are the
    entries of the rendered pages. *)
Lemma kept_truthy (doc : Document) (dpi : Z) (img_format : string) (quality : Z) :
  (∀ i e, (i < num_pages doc)%nat →
          render doc i dpi (encoding_of img_format quality) = inl e →
          Str.truthy e = true) →
  omap (kept doc dpi img_format quality) (seq 0 (num_pages doc))
    = success_entry img_format <$> rendered doc dpi img_format quality.
Proof.
  intros Htruthy. apply kept_with_data, Forall_forall. intros r Hr.
  apply list_elem_of_omap in Hr as (j & Hj & Hr). apply elem_of_seq in Hj.
  unfold kept in Hr. destruct (render doc j dpi _) as [e|d] eqn:Er.
  - rewrite (Htruthy j e) in Hr by (done || lia). done.
  - injection Hr as <-. by eexists.
Qed.

(** The run up to the archive stage.  When the source is there and opens,
    the worker count is accepted, every page that fails has a non-empty
    message, the output directory is there or can be made and no page file
    name is taken by a directory, every rendered page is written and the
    run goes on to the archive stage; as that stage ends the run ends. *)
Lemma convert_until_archive (pdf_path : path) (output_dir : option path)
    (img_format : string) (dpi quality : Z) (create_zip : bool)
    (num_workers : option Z) (fs : FS) (doc : Document) :
  is_Some (node_at fs pdf_path) →
  fitz_open (node_at fs pdf_path) = inr doc →
  pool_accepts sched (pool_workers cpu_count num_workers) →
  (∀ i e, (i < num_pages doc)%nat →
          render doc i dpi (encoding_of img_format quality) = inl e →
          Str.truthy e = true) →
  let out := output_dir_of pdf_path output_dir in
  let pages := rendered doc dpi img_format quality in
  let saved := (λ p, page_file out img_format p.1) <$> pages in
  (node_at fs out = Some Dir ∨
   (node_at fs out = None ∧ node_at fs (Path.parent out) = Some Dir)) →
  (∀ i, node_at fs (page_file out img_format i) ≠ Some Dir) →
  ∃ fs3,
    convert_pdf_to_images fitz_open cpu_count sched pdf_path output_dir img_format
      dpi quality create_zip num_workers fs
    = (match (make_zip pdf_path out create_zip saved fs3).1.1 with
       | Ok _ => Ok true
       | Raised e => Raised e
       end,
       (make_zip pdf_path out create_zip saved fs3).1.2,
       info_lines cpu_count pdf_path (num_pages doc) img_format dpi quality num_workers
       ++ omap (failure_line doc dpi img_format quality)
            (completion_order sched (pool_workers cpu_count num_workers) pdf_path
               (num_pages doc) dpi img_format quality)
       ++ MsgConverted (length pages) :: MsgSavedTo out
          :: (make_zip pdf_path out create_zip saved fs3).2) ∧
    (∀ p, node_at fs3 p = Some Dir ↔ p = out ∨ node_at fs p = Some Dir) ∧
    (∀ i d, (i, d) ∈ pages →
            node_at fs3 (page_file out img_format i) = Some (File (Raw d))).
Proof.
  intros [nd Hnd] Hopen Hpool Htruthy out pages saved Hout Hfree.
  rewrite convert_run. fold out. rewrite Hnd. cbn zeta.
  assert (∃ fs1, mkdir_exist_ok out fs = (Ok tt, fs1, []) ∧
                 node_at fs1 out = Some Dir ∧
                 (∀ p, p ≠ out → node_at fs1 p = node_at fs p))
    as (fs1 & Hmk & Hdir & Hframe).
  { rewrite mkdir_run. destruct Hout as [Hd | [Hn Hp]].
    - rewrite Hd. by exists fs.
    - rewrite Hn, Hp. exists (<[out := Dir]> fs). split_and!; [done | |].
      + apply PathFacts.node_at_insert_eq. intros E. by rewrite E in Hn.
      + intros p Hp'. by apply PathFacts.node_at_insert_ne. }
  rewrite Hmk.
  assert (node_at fs1 pdf_path = Some nd) as Hnd1.
  { rewrite <- Hnd. apply (mkdir_keeps _ _ _ _ _ Hmk). rewrite Hnd. eauto. }
  rewrite Hnd1. rewrite Hnd in Hopen. rewrite Hopen.
  rewrite (render_all_order fitz_open sched _ fs1 doc) by (by rewrite ?Hnd1).
  rewrite (kept_truthy _ _ _ _ Htruthy). fold pages.
  set (ext := Some (ext_of img_format)).
  assert (save_images out (success_entry img_format <$> pages) fs1
          = write_pages out ext (success_entry img_format <$> pages) fs1) as ->.
  { unfold save_images. by destruct pages. }
  destruct (write_pages_progress out ext (success_entry img_format <$> pages) fs1 Hdir)
    as (fs3 & Hw).
  { apply Forall_forall. intros r Hr. apply list_elem_of_fmap in Hr as ([i d] & -> & _).
    split; [by eexists|].
    change (file_of out ext (success_entry img_format (i, d)))
      with (page_file out img_format i).
    rewrite Hframe; [apply Hfree | apply PathFacts.join_ne]. }
  rewrite <- list_fmap_compose in Hw.
  change (file_of out ext ∘ success_entry img_format)
    with (λ p : nat * bytes, page_file out img_format p.1) in Hw.
  fold saved in Hw. rewrite Hw.
  exists fs3. split_and!.
  - destruct (make_zip pdf_path out create_zip saved fs3) as [[rz fs4] l4]. cbn.
    unfold saved. by rewrite length_fmap.
  - intros p. rewrite (write_pages_dirs _ _ _ _ _ _ _ p Hw). split.
    + intros Hp. destruct (decide (p = out)) as [->|Hne]; [by left|].
      right. by rewrite <- Hframe.
    + intros [-> | Hp]; [done|].
      destruct (decide (p = out)) as [->|Hne]; [done|]. by rewrite Hframe.
  - intros i d Hin.
    by apply (written_pages_on_disk doc dpi img_format quality out fs1 fs3 saved Htruthy Hw).
Qed.

(** Per-page isolation where it works: when the source is there and opens,
    the worker count is accepted, every page that fails has a non-empty
    message, the output directory is there or can be made, no page file
    name is taken by a directory and, with archiving on, the archive can be
    created beside the source, the run returns [True]; what it leaves is
    told by [convert_true_state]. *)
Theorem convert_succeeds (pdf_path : path) (output_dir : option path)
    (img_format : string) (dpi quality : Z) (create_zip : bool)
    (num_workers : option Z) (fs : FS) (doc : Document) :
  is_Some (node_at fs pdf_path) →
  fitz_open (node_at fs pdf_path) = inr doc →
  pool_accepts sched (pool_workers cpu_count num_workers) →
  (∀ i e, (i < num_pages doc)%nat →
          render doc i dpi (encoding_of img_format quality) = inl e →
          Str.truthy e = true) →
  let out := output_dir_of pdf_path output_dir in
  (node_at fs out = Some Dir ∨
   (node_at fs out = None ∧ node_at fs (Path.parent out) = Some Dir)) →
  (∀ i, node_at fs (page_file out img_format i) ≠ Some Dir) →
  (create_zip = true →
     out ≠ zip_path_of pdf_path ∧
     node_at fs (zip_path_of pdf_path) ≠ Some Dir ∧
     node_at fs (Path.parent pdf_path) = Some Dir) →
  ∃ fs' log,
    convert_pdf_to_images fitz_open cpu_count sched pdf_path output_dir img_format
      dpi quality create_zip num_workers fs = (Ok true, fs', log).
Proof.
  intros [nd Hnd] Hopen Hpool Htruthy out Hout Hfree Hzip.
  rewrite convert_run. fold out. rewrite Hnd. cbn zeta.
  assert (∃ fs1, mkdir_exist_ok out fs = (Ok tt, fs1, []) ∧
                 node_at fs1 out = Some Dir ∧
                 (∀ p, p ≠ out → node_at fs1 p = node_at fs p))
    as (fs1 & Hmk & Hdir & Hframe).
  { rewrite mkdir_run. destruct Hout as [Hd | [Hn Hp]].
    - rewrite Hd. by exists fs.
    - rewrite Hn, Hp. exists (<[out := Dir]> fs). split_and!; [done | |].
      + apply PathFacts.node_at_insert_eq. intros E. by rewrite E in Hn.
      + intros p Hp'. by apply PathFacts.node_at_insert_ne. }
  rewrite Hmk.
  assert (node_at fs1 pdf_path = Some nd) as Hnd1.
  { rewrite <- Hnd. apply (mkdir_keeps _ _ _ _ _ Hmk). rewrite Hnd. eauto. }
  rewrite Hnd1. rewrite Hnd in Hopen. rewrite Hopen.
  destruct (render_all_doc fitz_open sched (pool_workers cpu_count num_workers) fs1 doc
              pdf_path dpi img_format quality)
    as (printed & Hrun & Hprinted); [by rewrite Hnd1 | done |].
  rewrite Hrun, (kept_truthy _ _ _ _ Htruthy).
  set (pages := rendered doc dpi img_format quality).
  set (ext := Some (ext_of img_format)).
  assert (save_images out (success_entry img_format <$> pages) fs1
          = write_pages out ext (success_entry img_format <$> pages) fs1) as ->.
  { unfold save_images. by destruct pages. }
  destruct (write_pages_progress out ext (success_entry img_format <$> pages) fs1 Hdir)
    as (fs3 & Hw).
  { apply Forall_forall. intros r Hr. apply list_elem_of_fmap in Hr as ([i d] & -> & _).
    split; [by eexists|].
    change (file_of out ext (success_entry img_format (i, d)))
      with (page_file out img_format i).
    rewrite Hframe; [apply Hfree | apply PathFacts.join_ne]. }
  rewrite Hw.
  set (saved := file_of out ext <$> (success_entry img_format <$> pages)).
  destruct (create_zip && negb (bool_decide (saved = []))) eqn:Earch.
  2:{ rewrite make_zip_run, Earch. by eexists _, _. }
  apply andb_true_iff in Earch as [-> Hne]. destruct (Hzip eq_refl) as (Hoz & Hzfree & Hparent).
  assert (∀ p, node_at fs3 p = Some Dir ↔ node_at fs1 p = Some Dir) as Hdirs.
  { intros p. apply (write_pages_dirs _ _ _ _ _ _ _ p Hw). }
  assert (node_at fs3 (zip_path_of pdf_path) ≠ Some Dir) as Hz3.
  { rewrite Hdirs, Hframe by done. done. }
  assert (node_at fs3 (Path.parent (zip_path_of pdf_path)) = Some Dir) as Hp3.
  { unfold zip_path_of. rewrite PathFacts.parent_join. apply Hdirs.
    destruct (decide (Path.parent pdf_path = out)) as [-> | Hpo]; [done|].
    by rewrite Hframe. }
  destruct (zip_write_all_files (<[zip_path_of pdf_path := File (Zip [])]> fs3) saved)
    as (members & Hall & _).
  { apply Forall_forall. intros f Hf.
    apply list_elem_of_fmap in Hf as (r & -> & Hr).
    apply list_elem_of_fmap in Hr as ([i d] & -> & Hin).
    exists (Raw d).
    change (file_of out ext (success_entry img_format (i, d)))
      with (page_file out img_format i).
    rewrite PathFacts.node_at_insert_ne by (apply not_eq_sym, page_file_not_zip).
    unfold saved in Hw. rewrite <- list_fmap_compose in Hw.
    by apply (written_pages_on_disk doc dpi img_format quality out fs1 fs3 _ Htruthy Hw). }
  rewrite make_zip_run, Hne, write_zip_run, Hp3. cbn [andb].
  destruct (node_at fs3 (zip_path_of pdf_path)) as [[|c]|]; [done | |];
    cbn zeta; rewrite Hall; by eexists _, _.
Qed.

(** Under the same conditions the failure of a page stays with that page:
    the run returns [True], every page that renders is in its file under
    its own 1-based number, and every page that fails is reported under its
    1-based number. *)
Theorem page_failure_isolated (pdf_path : path) (output_dir : option path)
    (img_format : string) (dpi quality : Z) (create_zip : bool)
    (num_workers : option Z) (fs : FS) (doc : Document) :
  is_Some (node_at fs pdf_path) →
  fitz_open (node_at fs pdf_path) = inr doc →
  pool_accepts sched (pool_workers cpu_count num_workers) →
  (∀ i e, (i < num_pages doc)%nat →
          render doc i dpi (encoding_of img_format quality) = inl e →
          Str.truthy e = true) →
  let out := output_dir_of pdf_path output_dir in
  (node_at fs out = Some Dir ∨
   (node_at fs out = None ∧ node_at fs (Path.parent out) = Some Dir)) →
  (∀ i, node_at fs (page_file out img_format i) ≠ Some Dir) →
  (create_zip = true →
     out ≠ zip_path_of pdf_path ∧
     node_at fs (zip_path_of pdf_path) ≠ Some Dir ∧
     node_at fs (Path.parent pdf_path) = Some Dir) →
  ∃ fs' log,
    convert_pdf_to_images fitz_open cpu_count sched pdf_path output_dir img_format
      dpi quality create_zip num_workers fs = (Ok true, fs', log) ∧
    ∀ i, (i < num_pages doc)%nat →
      match render doc i dpi (encoding_of img_format quality) with
      | inr d => node_at fs' (page_file out img_format i) = Some (File (Raw d))
      | inl e => MsgPageFailed (i + 1) e ∈ log ∧
                 (node_at fs (page_file out img_format i) = None →
                  node_at fs' (page_file out img_format i) = None)
      end.
Proof.
  intros Hpdf Hopen Hpool Htruthy out Hout Hfree Hzip.
  destruct (convert_succeeds pdf_path output_dir img_format dpi quality create_zip
              num_workers fs doc Hpdf Hopen Hpool Htruthy Hout Hfree Hzip)
    as (fs' & log & Hrun).
  exists fs', log. split; [done|]. intros i Hi.
  apply convert_true_state in Hrun
    as (doc' & _ & Hopen' & _ & _ & Hfiles & Hfail & _ & Hframe).
  assert (doc' = doc) as -> by congruence. fold out in Hfiles, Hframe.
  destruct (render doc i dpi _) as [e|d] eqn:Er.
  - split; [by apply Hfail|]. intros Hnone. rewrite Hframe; [done | | |].
    + apply PathFacts.join_ne.
    + intros _. apply page_file_not_zip.
    + intros j d Hin Heq. apply elem_of_rendered in Hin as [_ Hr].
      apply PathFacts.join_inj in Heq as [_ Heq]. apply page_filename_inj in Heq.
      subst j. congruence.
  - apply Hfiles. by apply elem_of_rendered.
Qed.

End Progress.

(** * The statements of the specification *)

(** ** The ordering pass (C1) *)

Section Sequencer.

Variable fitz_open : option node → string + Document.
Variable sched : Scheduler.

Lemma kept_or_reported (doc : Document) (dpi : Z) (img_format : string)
    (quality : Z) (l : list nat) :
  (length (omap (kept doc dpi img_format quality) l)
   + length (omap (failure_line doc dpi img_format quality) l) = length l)%nat.
Proof.
  induction l as [|i l IH]; [done|]. cbn [omap list_omap].
  unfold kept at 1, failure_line at 1.
  destruct (render doc i dpi _) as [e|d]; [destruct (Str.truthy e)|]; simpl; lia.
Qed.

Lemma kept_page (doc : Document) (dpi : Z) (img_format : string) (quality : Z)
    (i : nat) (r : Entry) :
  kept doc dpi img_format quality i = Some r → entry_page r = i.
Proof.
  unfold kept. destruct (render doc i dpi _) as [e|d].
  - destruct (Str.truthy e); [done|]. by intros [= <-].
  - by intros [= <-].
Qed.

(** C1, as amended: for a document of P pages and a worker count W >= 1
    that the platform's pool takes (below 2147483647 on Linux, up to 61 on
    Windows), the pool stage ends normally and
    the results after the sort are in strictly ascending page order, hence
    without a repeated page number, and are the same list whatever the
    worker count and the completion order; they hold the entry of every
    page that rendered and none for a page whose failure was reported, so
    at most P entries, exactly the rendered pages' entries when every
    failure carries a message, and exactly P entries when no page fails. *)
Theorem sequenced_results (fs : FS) (pdf_path : path) (doc : Document)
    (w : Z) (dpi : Z) (img_format : string) (quality : Z) :
  fitz_open (node_at fs pdf_path) = inr doc →
  (1 ≤ w)%Z →
  pool_limit sched w = None →
  let outcome i := render doc i dpi (encoding_of img_format quality) in
  ∃ results printed,
    render_all fitz_open sched (Some w)
      (make_tasks pdf_path (num_pages doc) dpi img_format quality) fs
      = (Ok results, fs, printed) ∧
    results = omap (kept doc dpi img_format quality) (seq 0 (num_pages doc)) ∧
    ascending results ∧
    NoDup (entry_page <$> results) ∧
    (length results ≤ num_pages doc)%nat ∧
    (∀ i d, (i < num_pages doc)%nat → outcome i = inr d →
            (i, Some d, Some (ext_of img_format)) ∈ results) ∧
    (∀ i e, (i < num_pages doc)%nat → outcome i = inl e → Str.truthy e = true →
            (i ∉ entry_page <$> results) ∧ MsgPageFailed (i + 1) e ∈ printed) ∧
    ((∀ i e, (i < num_pages doc)%nat → outcome i = inl e → Str.truthy e = true) →
       results = success_entry img_format <$> rendered doc dpi img_format quality) ∧
    ((∀ i, (i < num_pages doc)%nat → ∃ d, outcome i = inr d) →
       length results = num_pages doc).
Proof.
  intros Hdoc Hw Hlimit outcome.
  destruct (render_all_doc fitz_open sched (Some w) fs doc pdf_path dpi img_format
              quality Hdoc) as (printed & Hrun & Hprinted); [split; [lia | done]|].
  eexists _, printed. split; [exact Hrun|]. split; [done|].
  pose proof (kept_ascending doc dpi img_format quality 0 (num_pages doc)) as [Hasc _].
  pose proof (kept_or_reported doc dpi img_format quality (seq 0 (num_pages doc))) as Hlen.
  rewrite length_seq in Hlen.
  split_and!; [done | by apply SortFacts.ascending_NoDup | lia | | | |].
  - intros i d Hi Hr. apply list_elem_of_omap. exists i.
    split; [apply elem_of_seq; lia|]. unfold kept. fold (outcome i). by rewrite Hr.
  - intros i e Hi Hr Ht. split.
    + intros Hin. apply list_elem_of_fmap in Hin as (r & Hpage & Hin).
      apply list_elem_of_omap in Hin as (j & _ & Hk).
      pose proof (kept_page _ _ _ _ _ _ Hk) as Hj. rewrite <- Hpage in Hj. subst j.
      unfold kept in Hk. fold (outcome i) in Hk. by rewrite Hr, Ht in Hk.
    + rewrite Hprinted. apply list_elem_of_omap. exists i.
      split; [apply elem_of_seq; lia|].
      unfold failure_line. fold (outcome i). by rewrite Hr, Ht.
  - intros Htruthy. apply kept_with_data, Forall_forall. intros r Hr.
    apply list_elem_of_omap in Hr as (j & Hj & Hr). apply elem_of_seq in Hj.
    unfold kept in Hr. fold (outcome j) in Hr. destruct (outcome j) as [e|d] eqn:Er.
    + rewrite (Htruthy j e) in Hr by (done || lia). done.
    + injection Hr as <-. by eexists.
  - intros Hall.
    assert (omap (failure_line doc dpi img_format quality) (seq 0 (num_pages doc)) = [])
      as Hnone; [|rewrite Hnone in Hlen; simpl in Hlen; lia].
    destruct (omap (failure_line _ _ _ _) _) as [|m l] eqn:E; [done|].
    assert (m ∈ omap (failure_line doc dpi img_format quality) (seq 0 (num_pages doc)))
      as Hm by (rewrite E; apply list_elem_of_here).
    apply list_elem_of_omap in Hm as (j & Hj & Hm). apply elem_of_seq in Hj.
    destruct (Hall j) as [d Hd]; [lia|].
    unfold failure_line in Hm. fold (outcome j) in Hm. by rewrite Hd in Hm.
Qed.

End Sequencer.

Lemma sequenced_results_witness :
  let bad := Examples.only_bad 2 "corrupt page" in
  Examples.fitz bad (node_at (Examples.fs_with Byte.x05) Examples.pdf)
    = inr (Examples.doc_of 5 bad) ∧
  (1 ≤ 4)%Z ∧
  pool_limit Examples.reversed 4 = None ∧
  ∃ results printed,
    render_all (Examples.fitz bad) Examples.reversed (Some 4%Z)
      (make_tasks Examples.pdf 5 150 "jpeg" 85) (Examples.fs_with Byte.x05)
      = (Ok results, Examples.fs_with Byte.x05, printed) ∧
    entry_page <$> results = [0; 1; 3; 4]%nat.
Proof.
  intros bad. split; [reflexivity|]. split; [lia|]. split; [reflexivity|].
  destruct (sequenced_results (Examples.fitz bad) Examples.reversed
              (Examples.fs_with Byte.x05) Examples.pdf (Examples.doc_of 5 bad)
              4 150 "jpeg" 85 eq_refl ltac:(lia) eq_refl)
    as (results & printed & Hrun & Hres & _).
  exists results, printed. split; [exact Hrun|]. rewrite Hres. reflexivity.
Defined.

(** C1 as stated fails: a one-page document whose page fails to render
    leaves no entry, not one. *)
Lemma failed_page_leaves_no_entry :
  ∃ results printed,
    render_all (Examples.fitz (Examples.only_bad 0 "corrupt page")) Examples.in_order (Some 1%Z)
      (make_tasks Examples.pdf 1 150 "jpeg" 85) (Examples.fs_with Byte.x01)
      = (Ok results, Examples.fs_with Byte.x01, printed) ∧
    length results ≠ 1%nat.
Proof. exists [], [MsgPageFailed 1 "corrupt page"]. split; [reflexivity | discriminate]. Qed.

(** ** Rejected quality values (C9) *)

(** C9: a quality below 1 or above 100 is rejected before anything else
    happens: the error line is the only thing printed, the process exits
    with status 1 and the file system is as it was, so no page was
    processed and not even the output directory was made. *)
Theorem quality_out_of_range_rejected (fitz_open : option node → string + Document)
    (cpu_count : option Z) (sched : Scheduler) (args : Args) (fs : FS) :
  (quality args < 1 ∨ 100 < quality args)%Z →
  main fitz_open cpu_count sched args fs = (Exit 1, fs, [MsgBadQuality]) ∧
  exit_status (main fitz_open cpu_count sched args fs).1.1 ≠ 0%Z.
Proof.
  intros H. unfold main.
  assert (((quality args <? 1)%Z || (quality args >? 100)%Z) = true) as ->; [|done].
  apply orb_true_iff. destruct H; [left | right]; lia.
Qed.

Lemma quality_out_of_range_rejected_witness :
  let zero := {| pdf_file := Examples.pdf; output := None; format := "jpeg";
                 dpi := 150; quality := 0; no_zip := false; workers := None |} in
  let over := {| pdf_file := Examples.pdf; output := None; format := "jpeg";
                 dpi := 150; quality := 101; no_zip := false; workers := None |} in
  main (Examples.fitz Examples.all_good) None Examples.in_order zero
    (Examples.fs_with Byte.x05) = (Exit 1, Examples.fs_with Byte.x05, [MsgBadQuality]) ∧
  main (Examples.fitz Examples.all_good) None Examples.in_order over
    (Examples.fs_with Byte.x05) = (Exit 1, Examples.fs_with Byte.x05, [MsgBadQuality]).
Proof.
  intros zero over. split.
  - apply (quality_out_of_range_rejected _ _ _ zero). left. simpl. lia.
  - apply (quality_out_of_range_rejected _ _ _ over). right. simpl. lia.
Defined.

(** ** The extension of the written files (C10) *)

(** The write loop leaves alone every path that is not the file of one of
    the entries, however the loop ends. *)
Lemma write_pages_untouched (output_dir : path) (ext : option string)
    (rs : list Entry) (fs fs' : FS) (r : result (list path)) (l : list Msg) (p : path) :
  write_pages output_dir ext rs fs = (r, fs', l) →
  p ∉ file_of output_dir ext <$> rs → fs' !! p = fs !! p.
Proof.
  revert fs fs' r l. induction rs as [|r0 rs IH]; intros fs fs' r l H Hp.
  - by injection H as <- <- <-.
  - rewrite write_pages_cons in H. rewrite fmap_cons in Hp.
    apply not_elem_of_cons in Hp as [Hne Hp].
    destruct (node_at fs (file_of output_dir ext r0)) as [[|c]|];
      [by injection H as <- <- <- | |];
      (destruct (node_at fs output_dir) as [[|c']|]; [|by injection H as <- <- <-..];
       destruct (entry_data r0) as [b|];
         [|injection H as <- <- <-; by rewrite lookup_insert_ne];
       destruct (write_pages _ _ rs _) as [[[s1|e1] fs1] l1] eqn:Ew;
       injection H as <- <- <-;
       rewrite (IH _ _ _ _ Ew Hp); by rewrite lookup_insert_ne).
Qed.





(** ** A failing page write (C5) *)

(** C5, as amended: a failure while writing one page's file is not caught.
    When the loop has written the entries [before] and the write of [r]
    fails, the loop over [before ++ r :: after] ends there with that
    exception and prints nothing: the files of the entries before [r] are
    as the loop left them, the state differs from theirs at most in the
    file of [r], and no entry of [after] is written, whatever [after] is. *)
Theorem write_failure_ends_loop (output_dir : path) (ext : option string)
    (before after : list Entry) (r : Entry) (fs fs1 fs2 : FS)
    (saved : list path) (e : exn) (l1 l2 : list Msg) :
  write_pages output_dir ext before fs = (Ok saved, fs1, l1) →
  write_pages output_dir ext [r] fs1 = (Raised e, fs2, l2) →
  write_pages output_dir ext (before ++ r :: after) fs = (Raised e, fs2, []) ∧
  (∀ p, p ≠ file_of output_dir ext r → fs2 !! p = fs1 !! p) ∧
  (∀ p, p ∉ file_of output_dir ext <$> before → p ≠ file_of output_dir ext r →
        fs2 !! p = fs !! p).
Proof.
  intros Hbefore Hr.
  pose proof (write_pages_silent _ _ _ _ _ _ _ Hbefore) as ->.
  pose proof (write_pages_silent _ _ _ _ _ _ _ Hr) as ->.
  assert (write_pages output_dir ext (r :: after) fs1 = (Raised e, fs2, [])) as Hcut.
  { rewrite write_pages_cons in Hr |- *.
    destruct (node_at fs1 (file_of output_dir ext r)) as [[|c]|]; [done | |];
      (destruct (node_at fs1 output_dir) as [[|c']|]; [|done..];
       by destruct (entry_data r) as [b|]). }
  assert (∀ p, p ≠ file_of output_dir ext r → fs2 !! p = fs1 !! p) as Hsame.
  { intros p Hp. apply (write_pages_untouched _ _ _ _ _ _ _ _ Hr).
    rewrite list_fmap_singleton. by intros ->%list_elem_of_singleton. }
  split_and!; [| done |].
  - by rewrite write_pages_app, Hbefore, Hcut.
  - intros p Hp Hpr. rewrite Hsame by done.
    by apply write_pages_ok_inv in Hbefore as (_ & -> & Hother & _); apply Hother.
Qed.

Lemma write_failure_ends_loop_witness :
  let fs : FS := <[ ["out"; "page_002.jpg"] := Dir ]> (<[ ["out"] := Dir ]> ∅) in
  let first : Entry := (0, Some [Byte.xff], Some "jpg") in
  let second : Entry := (1, Some [Byte.xff; Byte.x01], Some "jpg") in
  let third : Entry := (2, Some [Byte.xff; Byte.x01; Byte.x01], Some "jpg") in
  let fs1 : FS := <[ ["out"; "page_001.jpg"] := File (Raw [Byte.xff]) ]> fs in
  write_pages ["out"] (Some "jpg") [first] fs = (Ok [ ["out"; "page_001.jpg"] ], fs1, []) ∧
  write_pages ["out"] (Some "jpg") [second] fs1
    = (Raised (IsADirectoryError ["out"; "page_002.jpg"]), fs1, []) ∧
  write_pages ["out"] (Some "jpg") [first; second; third] fs
    = (Raised (IsADirectoryError ["out"; "page_002.jpg"]), fs1, []) ∧
  fs1 !! ["out"; "page_003.jpg"] = None.
Proof.
  intros fs first second third fs1.
  assert (write_pages ["out"] (Some "jpg") [first] fs
          = (Ok [ ["out"; "page_001.jpg"] ], fs1, [])) as H1 by reflexivity.
  assert (write_pages ["out"] (Some "jpg") [second] fs1
          = (Raised (IsADirectoryError ["out"; "page_002.jpg"]), fs1, [])) as H2
    by reflexivity.
  split; [exact H1|]. split; [exact H2|]. split; [|reflexivity].
  exact (proj1 (write_failure_ends_loop ["out"] (Some "jpg") [first] [third] second
                  fs fs1 fs1 _ _ [] [] H1 H2)).
Defined.

(** ** File names and places (C3) *)

Lemma ascending_success_entries (img_format : string) (pages : list (nat * bytes)) :
  ascending (success_entry img_format <$> pages) → StronglySorted lt (fst <$> pages).
Proof.
  unfold ascending. induction pages as [|p pages IH]; intros Hasc; [constructor|].
  rewrite !fmap_cons in *. apply StronglySorted_inv in Hasc as [Hs Hall].
  constructor; [by apply IH|].
  rewrite Forall_forall in Hall. rewrite Forall_forall. intros j Hj.
  apply list_elem_of_fmap in Hj as (q & -> & Hq).
  by apply (Hall (success_entry img_format q)), list_elem_of_fmap_2.
Qed.

Section Layout.

Variable fitz_open : option node → string + Document.
Variable cpu_count : option Z.
Variable sched : Scheduler.

(** C3: in a run that returns [True], every page index i that rendered is
    in the file [page_NNN.<ext>] of the output directory, where NNN reads
    back as i+1 and is as long as the numeral of i+1 or 3 characters,
    whichever is more; without an output directory given, the output
    directory is [<stem>_images] beside the source; and the archive, when
    one is made, is [<stem>_images.zip] beside the source. *)
Theorem output_layout (pdf_path : path) (output_dir : option path)
    (img_format : string) (dpi quality : Z) (create_zip : bool)
    (num_workers : option Z) (fs fs' : FS) (log : list Msg) :
  convert_pdf_to_images fitz_open cpu_count sched pdf_path output_dir img_format
    dpi quality create_zip num_workers fs = (Ok true, fs', log) →
  let out := output_dir_of pdf_path output_dir in
  ∃ doc,
    fitz_open (node_at fs pdf_path) = inr doc ∧
    (output_dir = None → out = Path.parent pdf_path // (Path.stem pdf_path +:+ "_images")) ∧
    node_at fs' out = Some Dir ∧
    (∀ i d, (i < num_pages doc)%nat →
       render doc i dpi (encoding_of img_format quality) = inr d →
       ∃ nnn,
         node_at fs' (out // ("page_" +:+ nnn +:+ "." +:+ ext_of img_format))
           = Some (File (Raw d)) ∧
         Str.to_nat nnn = Some (i + 1)%nat ∧
         String.length nnn = Nat.max 3 (String.length (Str.of_nat (i + 1)))) ∧
    (create_zip = true → rendered doc dpi img_format quality ≠ [] →
       ∃ members,
         node_at fs' (Path.parent pdf_path // (Path.stem pdf_path +:+ "_images.zip"))
           = Some (File (Zip members))).
Proof.
  intros H out.
  apply convert_true_state in H
    as (doc & _ & Hopen & _ & Hdir & Hfiles & _ & Hzip & _).
  exists doc. split_and!; [done | by intros -> | done | |].
  - intros i d Hi Hr. exists (Str.zfill 3 (Str.of_nat (i + 1))). split_and!.
    + apply (Hfiles i d). by apply elem_of_rendered.
    + apply StrFacts.to_nat_zfill.
    + apply StrFacts.length_zfill_max.
  - intros -> Hne. eexists. apply Hzip.
    by rewrite bool_decide_eq_false_2.
Qed.

(** ** The archive (C7) *)

(** C7: in a run with archiving on that returns [True] and wrote at least
    one page file, the archive holds exactly one member per written file,
    in ascending page order, named by the file's base name and holding the
    file's bytes; the files themselves are still in the output directory
    when the run ends. *)
Theorem archive_lists_written_pages (pdf_path : path) (output_dir : option path)
    (img_format : string) (dpi quality : Z)
    (num_workers : option Z) (fs fs' : FS) (log : list Msg) :
  convert_pdf_to_images fitz_open cpu_count sched pdf_path output_dir img_format
    dpi quality true num_workers fs = (Ok true, fs', log) →
  let out := output_dir_of pdf_path output_dir in
  ∃ doc,
    let pages := rendered doc dpi img_format quality in
    let files := (λ p, page_file out img_format p.1) <$> pages in
    fitz_open (node_at fs pdf_path) = inr doc ∧
    StronglySorted lt (fst <$> pages) ∧
    (∀ i d, (i, d) ∈ pages ↔
            (i < num_pages doc)%nat ∧
            render doc i dpi (encoding_of img_format quality) = inr d) ∧
    Forall2 (λ f p, node_at fs' f = Some (File (Raw p.2))) files pages ∧
    (pages ≠ [] →
       ∃ members,
         node_at fs' (zip_path_of pdf_path) = Some (File (Zip members)) ∧
         fst <$> members = Path.name <$> files ∧
         snd <$> members = (λ p, Raw p.2) <$> pages).
Proof.
  intros H out.
  apply convert_true_state in H
    as (doc & _ & Hopen & _ & Hdir & Hfiles & Hfail & Hzip & _).
  fold out in Hfiles. exists doc. cbn zeta.
  set (pages := rendered doc dpi img_format quality) in *.
  split_and!; [done | | | |].
  - pose proof (kept_ascending doc dpi img_format quality 0 (num_pages doc)) as [Hasc _].
    assert (omap (kept doc dpi img_format quality) (seq 0 (num_pages doc))
            = success_entry img_format <$> pages) as Hk.
    { apply kept_with_data, Forall_forall. intros r Hr.
      apply list_elem_of_omap in Hr as (j & Hj & Hr). apply elem_of_seq in Hj.
      unfold kept in Hr. destruct (render doc j dpi _) as [e|d] eqn:Er.
      - destruct (Hfail j e) as [Ht _]; [lia | done |]. by rewrite Ht in Hr.
      - injection Hr as <-. by eexists. }
    rewrite Hk in Hasc. by apply ascending_success_entries in Hasc.
  - intros i d. apply elem_of_rendered.
  - apply Forall2_fmap_l, Forall_Forall2_diag, Forall_forall.
    intros [i d] Hin. by apply Hfiles.
  - intros Hne. eexists. split; [apply Hzip; by rewrite bool_decide_eq_false_2|].
    rewrite <- !list_fmap_compose. split; apply list_fmap_ext; intros k [i d] _;
      [|done].
    unfold compose, page_member, page_file. by rewrite PathFacts.name_join.
Qed.

End Layout.

Lemma output_layout_witness :
  Examples.run_five = (Ok true, Examples.fs_five_done, Examples.log_five) ∧
  node_at Examples.fs_five_done (output_dir_of Examples.pdf None) = Some Dir ∧
  output_dir_of Examples.pdf None = ["doc_images"].
Proof.
  assert (Examples.run_five = (Ok true, Examples.fs_five_done, Examples.log_five)) as H
    by run_is.
  split; [exact H|].
  destruct (output_layout _ _ _ _ _ _ _ _ _ _ _ _ _ H) as (doc & _ & _ & Hdir & _).
  split; [exact Hdir | reflexivity].
Defined.

Lemma archive_lists_written_pages_witness :
  Examples.run_five = (Ok true, Examples.fs_five_done, Examples.log_five) ∧
  (∃ members,
     node_at Examples.fs_five_done (zip_path_of Examples.pdf) = Some (File (Zip members))) ∧
  node_at Examples.fs_five_done ["doc_images.zip"]
    = Some (File (Zip [("page_001.jpg", Raw (Examples.jpeg 0));
                       ("page_002.jpg", Raw (Examples.jpeg 1));
                       ("page_004.jpg", Raw (Examples.jpeg 3));
                       ("page_005.jpg", Raw (Examples.jpeg 4))])).
Proof.
  assert (Examples.run_five = (Ok true, Examples.fs_five_done, Examples.log_five)) as H
    by run_is.
  split; [exact H|]. split; [|vm_compute; reflexivity].
  destruct (archive_lists_written_pages _ _ _ _ _ _ _ _ _ _ _ _ H)
    as (doc & Hdoc & _ & _ & _ & Hzip).
  assert (rendered doc 150 "jpeg" 85 ≠ []) as Hne.
  { vm_compute in Hdoc. injection Hdoc as <-. discriminate. }
  destruct (Hzip Hne) as (members & Hnode & _).
  exists members. exact Hnode.
Defined.

(** ** The exit status (C4, C6, C8) *)

Section ExitStatus.

Variable fitz_open : option node → string + Document.
Variable cpu_count : option Z.
Variable sched : Scheduler.

(** [main] once the quality is accepted. *)
Lemma main_run (args : Args) (fs : FS) :
  (1 ≤ quality args ≤ 100)%Z →
  main fitz_open cpu_count sched args fs =
  match convert_pdf_to_images fitz_open cpu_count sched (pdf_file args) (output args)
          (format args) (dpi args) (quality args) (negb (no_zip args)) (workers args) fs with
  | (Ok success, fs', printed) =>
      (Exit (if success then 0 else 1)%Z, fs', dpi_warning (dpi args) ++ printed)
  | (Raised e, fs', printed) => (Traceback e, fs', dpi_warning (dpi args) ++ printed)
  end.
Proof.
  intros Hq. unfold main, dpi_warning.
  assert (((quality args <? 1)%Z || (quality args >? 100)%Z) = false) as ->; [|done].
  apply orb_false_iff. lia.
Qed.

Lemma dpi_warning_no_zip (d : Z) : MsgZipStart ∉ dpi_warning d.
Proof.
  unfold dpi_warning. destruct (d <? 72)%Z; [|destruct (d >? 600)%Z];
    rewrite ?not_elem_of_cons; split_and?; try done; apply not_elem_of_nil.
Qed.



(** C6, as amended: an archive that cannot be made is not turned into a
    warning.  Take a run that gets as far as the archive: accepted quality,
    a source that opens, an accepted worker count, failures with a message
    only, an output directory that is there or can be made, page file
    names that are free, archiving on and at least one rendered page.  When
    the archive cannot be created, because its path is the output
    directory or another directory, or because the directory of the source
    is no directory, the exception of the archive's [open] is not caught:
    the process ends with it, with exit status 1, the announcement of the
    archive being the last line printed (no completion line, no warning),
    and every rendered page stays in its file with its bytes. *)
Theorem archive_failure_keeps_pages (args : Args) (fs : FS) (doc : Document) :
  (1 ≤ quality args ≤ 100)%Z →
  is_Some (node_at fs (pdf_file args)) →
  fitz_open (node_at fs (pdf_file args)) = inr doc →
  pool_accepts sched (pool_workers cpu_count (workers args)) →
  (∀ i e, (i < num_pages doc)%nat →
          render doc i (dpi args) (encoding_of (format args) (quality args)) = inl e →
          Str.truthy e = true) →
  let out := output_dir_of (pdf_file args) (output args) in
  let zip := zip_path_of (pdf_file args) in
  let pages := rendered doc (dpi args) (format args) (quality args) in
  (node_at fs out = Some Dir ∨
   (node_at fs out = None ∧ node_at fs (Path.parent out) = Some Dir)) →
  (∀ i, node_at fs (page_file out (format args) i) ≠ Some Dir) →
  no_zip args = false →
  pages ≠ [] →
  (zip = out ∨ node_at fs zip = Some Dir ∨
   (node_at fs (Path.parent (pdf_file args)) ≠ Some Dir ∧
    Path.parent (pdf_file args) ≠ out)) →
  ∃ e fs',
    main fitz_open cpu_count sched args fs
    = (Traceback e, fs',
       dpi_warning (dpi args)
       ++ info_lines cpu_count (pdf_file args) (num_pages doc) (format args) (dpi args)
            (quality args) (workers args)
       ++ omap (failure_line doc (dpi args) (format args) (quality args))
            (completion_order sched (pool_workers cpu_count (workers args)) (pdf_file args)
               (num_pages doc) (dpi args) (format args) (quality args))
       ++ [MsgConverted (length pages); MsgSavedTo out; MsgZipStart]) ∧
    (e = IsADirectoryError zip ∨ e = NotADirectoryError zip ∨ e = FileNotFoundError zip) ∧
    exit_status (Traceback e) = 1%Z ∧
    (∀ i d, (i, d) ∈ pages →
            node_at fs' (page_file out (format args) i) = Some (File (Raw d))).
Proof.
  intros Hq Hpdf Hopen Hpool Htruthy out zip pages Hout Hfree Hnozip Hne Hblocked.
  destruct (convert_until_archive fitz_open cpu_count sched (pdf_file args) (output args)
              (format args) (dpi args) (quality args) (negb (no_zip args)) (workers args)
              fs doc Hpdf Hopen Hpool Htruthy Hout Hfree)
    as (fs3 & Hrun & Hdirs & Hfiles).
  fold out pages in Hrun, Hfiles.
  set (saved := (λ p : nat * bytes, page_file out (format args) p.1) <$> pages) in *.
  assert (∃ e, write_zip zip saved fs3 = (Raised e, fs3, []) ∧
               (e = IsADirectoryError zip ∨ e = NotADirectoryError zip ∨
                e = FileNotFoundError zip)) as (e & Hw & He).
  { rewrite write_zip_run.
    assert (node_at fs3 zip ≠ Some Dir →
            node_at fs3 (Path.parent zip) ≠ Some Dir) as Hparent.
    { intros Hz Hp. rewrite Hdirs in Hz, Hp.
      unfold zip, zip_path_of in Hp. rewrite PathFacts.parent_join in Hp.
      destruct Hblocked as [E | [Hd | [Hnd Hno]]]; [by destruct Hz; left | by destruct Hz; right |].
      by destruct Hp. }
    destruct (node_at fs3 zip) as [[|c]|] eqn:Ez.
    - eexists. split; [done | by left].
    - destruct (node_at fs3 (Path.parent zip)) as [[|c']|];
        [by destruct Hparent | eexists; split; [done | auto] ..].
    - destruct (node_at fs3 (Path.parent zip)) as [[|c']|];
        [by destruct Hparent | eexists; split; [done | auto] ..]. }
  assert (make_zip (pdf_file args) out (negb (no_zip args)) saved fs3
          = (Raised e, fs3, [MsgZipStart])) as Hz.
  { rewrite make_zip_run, Hnozip. fold zip. rewrite Hw.
    rewrite bool_decide_eq_false_2; [done|]. unfold saved. by destruct pages. }
  rewrite Hz in Hrun. cbn [fst snd] in Hrun.
  rewrite main_run by done. rewrite Hrun.
  exists e, fs3. split_and!; [done | done | done | done].
Qed.

(** C8: a document without pages, with an accepted quality, a worker
    count the pool takes and an output directory that is there or can be
    made, ends with
    status 0; the output directory is a directory and nothing else in the
    file system changed, so no page file and no archive were written, with
    archiving on or off; no failure and no archive line is printed, and
    the count printed is 0. *)
Theorem empty_document_run (args : Args) (fs : FS) (doc : Document) :
  (1 ≤ quality args ≤ 100)%Z →
  is_Some (node_at fs (pdf_file args)) →
  fitz_open (node_at fs (pdf_file args)) = inr doc →
  num_pages doc = 0%nat →
  pool_accepts sched (pool_workers cpu_count (workers args)) →
  let out := output_dir_of (pdf_file args) (output args) in
  (node_at fs out = Some Dir ∨
   (node_at fs out = None ∧ node_at fs (Path.parent out) = Some Dir)) →
  ∃ fs' log,
    main fitz_open cpu_count sched args fs = (Exit 0, fs', log) ∧
    node_at fs' out = Some Dir ∧
    (∀ p, p ≠ out → node_at fs' p = node_at fs p) ∧
    MsgConverted 0 ∈ log ∧
    (MsgZipStart ∉ log) ∧
    (∀ n e, MsgPageFailed n e ∉ log).
Proof.
  intros Hq Hpdf Hopen Hzero Hpool out Hout.
  rewrite main_run by done. rewrite convert_run. fold out.
  destruct Hpdf as [nd Hnd]. rewrite Hnd. cbn zeta.
  assert (∃ fs1, mkdir_exist_ok out fs = (Ok tt, fs1, []) ∧
                 node_at fs1 out = Some Dir ∧
                 (∀ p, p ≠ out → node_at fs1 p = node_at fs p))
    as (fs1 & Hmk & Hdir & Hframe).
  { rewrite mkdir_run. destruct Hout as [Hd | [Hn Hp]].
    - rewrite Hd. by exists fs.
    - rewrite Hn, Hp. exists (<[out := Dir]> fs). split_and!; [done | |].
      + apply PathFacts.node_at_insert_eq. intros E. by rewrite E in Hn.
      + intros p Hp'. by apply PathFacts.node_at_insert_ne. }
  rewrite Hmk.
  assert (node_at fs1 (pdf_file args) = Some nd) as Hnd1.
  { rewrite <- Hnd. apply (mkdir_keeps _ _ _ _ _ Hmk). rewrite Hnd. eauto. }
  rewrite Hnd1. rewrite Hnd in Hopen. rewrite Hopen.
  destruct (render_all_doc fitz_open sched (pool_workers cpu_count (workers args)) fs1 doc
              (pdf_file args) (dpi args) (format args) (quality args))
    as (printed & Hrun & Hprinted); [by rewrite Hnd1 | done |].
  rewrite Hzero in *. cbn [seq omap list_omap] in Hrun, Hprinted.
  apply Permutation_nil_r in Hprinted as ->.
  rewrite Hrun. unfold save_images. cbn [write_pages].
  change ((mret [] : M (list path)) fs1) with (Ok (@nil path), fs1, @nil Msg).
  cbn iota beta. rewrite make_zip_skip by (by right).
  eexists _, _. split; [reflexivity|]. cbn [app].
  split_and!; [done.. | | |].
  - apply elem_of_app. right. apply elem_of_app. right. apply list_elem_of_here.
  - intros H. apply elem_of_app in H as [H | H]; [by apply dpi_warning_no_zip in H|].
    apply elem_of_app in H as [H | H]; [by apply info_lines_no_zip in H|].
    by repeat (apply elem_of_cons in H as [? | H]; [done|]); apply elem_of_nil in H.
  - intros n e H. apply elem_of_app in H as [H | H].
    { unfold dpi_warning in H.
      destruct (dpi args <? 72)%Z; [|destruct (dpi args >? 600)%Z];
        by repeat (apply elem_of_cons in H as [? | H]; [done|]); apply elem_of_nil in H. }
    apply elem_of_app in H as [H | H].
    { unfold info_lines in H. destruct (String.eqb _ _); cbn in H;
        by repeat (apply elem_of_cons in H as [? | H]; [done|]); apply elem_of_nil in H. }
    by repeat (apply elem_of_cons in H as [? | H]; [done|]); apply elem_of_nil in H.
Qed.

End ExitStatus.

(** ** Concrete runs *)



(** C5 as stated fails: with the first page's file name taken by a
    directory the run ends with the exception of that write, nothing is
    written, and the second page, which rendered, has no file. *)
Lemma blocked_page_stops_later_pages :
  Examples.main_blocked_page
    = (Traceback (IsADirectoryError ["doc_images"; "page_001.jpg"]),
       Examples.fs_blocked_page, Examples.info_default 2) ∧
  render (Examples.doc_of 2 Examples.all_good) 1 150 (EncJpeg 85)
    = inr (Examples.jpeg 1) ∧
  node_at Examples.fs_blocked_page ["doc_images"; "page_002.jpg"] = None.
Proof. split_and!; first [run_is | vm_compute; reflexivity]. Qed.

(** A page file of the default output directory of [doc.pdf]. *)
Lemma page_files_free (fs : FS) (i : nat) :
  fs !! ["doc_images"; page_filename i (Some "jpg")] = None →
  node_at fs (page_file (output_dir_of Examples.pdf None) "jpeg" i) ≠ Some Dir.
Proof.
  intros H. change (fs !! ["doc_images"; page_filename i (Some "jpg")] ≠ Some Dir).
  by rewrite H.
Qed.

Lemma archive_failure_keeps_pages_witness :
  let fs := Examples.fs_blocked_zip in
  node_at fs (zip_path_of Examples.pdf) = Some Dir ∧
  ∃ e fs' log,
    main (Examples.fitz Examples.all_good) None Examples.in_order
      Examples.args_default fs = (Traceback e, fs', log) ∧
    node_at fs' (page_file (output_dir_of Examples.pdf None) "jpeg" 1)
      = Some (File (Raw (Examples.jpeg 1))).
Proof.
  intros fs.
  assert (node_at fs (zip_path_of Examples.pdf) = Some Dir) as Hzip by reflexivity.
  split; [exact Hzip|].
  destruct (archive_failure_keeps_pages (Examples.fitz Examples.all_good) None
              Examples.in_order Examples.args_default fs
              (Examples.doc_of 2 Examples.all_good))
    as (e & fs' & Hrun & _ & _ & Hfiles).
  - simpl. lia.
  - by eexists.
  - reflexivity.
  - split; [lia | reflexivity].
  - intros i e _ He. discriminate He.
  - right. split; reflexivity.
  - intros i. apply page_files_free.
    unfold fs, Examples.fs_blocked_zip, Examples.fs_with.
    rewrite lookup_insert_ne by discriminate. by rewrite lookup_singleton_ne.
  - reflexivity.
  - intros H. vm_compute in H. discriminate H.
  - right. left. exact Hzip.
  - eexists e, fs', _. split; [exact Hrun|].
    apply (Hfiles 1%nat (Examples.jpeg 1)).
    apply elem_of_rendered. split; [simpl; lia | reflexivity].
Defined.

(** C6 as stated fails: with the archive's name taken by a directory the
    run ends with an exception and status 1, not with a warning, although
    both page files were written. *)
Lemma blocked_archive_fails_run :
  Examples.main_blocked_zip
    = (Traceback (IsADirectoryError ["doc_images.zip"]), Examples.fs_blocked_zip_done,
       Examples.info_default 2 ++
       [MsgConverted 2; MsgSavedTo ["doc_images"]; MsgZipStart]) ∧
  exit_status (Traceback (IsADirectoryError ["doc_images.zip"])) ≠ 0%Z ∧
  node_at Examples.fs_blocked_zip_done ["doc_images"; "page_001.jpg"]
    = Some (File (Raw (Examples.jpeg 0))) ∧
  node_at Examples.fs_blocked_zip_done ["doc_images"; "page_002.jpg"]
    = Some (File (Raw (Examples.jpeg 1))).
Proof. split_and!; first [run_is | vm_compute; reflexivity | discriminate]. Qed.

Lemma empty_document_run_witness :
  let fs := Examples.fs_with Byte.x00 in
  (1 ≤ quality Examples.args_default ≤ 100)%Z ∧
  Examples.fitz Examples.all_good (node_at fs Examples.pdf)
    = inr (Examples.doc_of 0 Examples.all_good) ∧
  ∃ fs' log,
    main (Examples.fitz Examples.all_good) None Examples.in_order
      Examples.args_default fs = (Exit 0, fs', log) ∧
    node_at fs' (output_dir_of Examples.pdf None) = Some Dir.
Proof.
  intros fs. split; [simpl; lia|]. split; [reflexivity|].
  destruct (empty_document_run (Examples.fitz Examples.all_good) None Examples.in_order
              Examples.args_default fs (Examples.doc_of 0 Examples.all_good))
    as (fs' & log & Hrun & Hdir & _).
  - simpl. lia.
  - by eexists.
  - reflexivity.
  - reflexivity.
  - split; [lia | reflexivity].
  - right. split; reflexivity.
  - exists fs', log. split; [exact Hrun | exact Hdir].
Defined.

(** Worker counts the pool does not take, although they are positive: on
    Linux 2147483647 ends the run with [OverflowError], on Windows 62 ends
    it with [ValueError], each after the output directory was made and the
    information lines were printed. *)
Lemma worker_count_beyond_limit_run :
  main (Examples.fitz Examples.all_good) None Examples.in_order
    (Examples.args_workers 2147483647) (Examples.fs_with Byte.x00)
  = (Traceback OverflowError, Examples.fs_no_pages_done,
     Examples.info_workers 0 2147483647) ∧
  main (Examples.fitz Examples.all_good) None Examples.in_order_windows
    (Examples.args_workers 62) (Examples.fs_with Byte.x00)
  = (Traceback ValueError, Examples.fs_no_pages_done, Examples.info_workers 0 62).
Proof. split; run_is. Qed.

(** C2 fails on the code when the failing page's exception has an empty
    message: [if error:] takes the empty string for "no error".  Of a
    five-page document whose third page fails so, the entry without bytes
    is kept, no failure is reported, and the write loop ends with
    [TypeError] at that entry: pages 1 and 2 are written, [page_003.jpg]
    is left empty, pages 4 and 5 are never written although they render,
    no archive is made, and the status is 1. *)
Theorem empty_message_failure_aborts_run :
  Examples.main_empty_message
    = (Traceback TypeError, Examples.fs_empty_message_done, Examples.info_default 5) ∧
  exit_status (Traceback TypeError) = 1%Z ∧
  rendered (Examples.doc_of 5 (Examples.only_bad 2 "")) 150 "jpeg" 85
    = [(0, Examples.jpeg 0); (1, Examples.jpeg 1);
       (3, Examples.jpeg 3); (4, Examples.jpeg 4)]%nat ∧
  node_at Examples.fs_empty_message_done ["doc_images"; "page_001.jpg"]
    = Some (File (Raw (Examples.jpeg 0))) ∧
  node_at Examples.fs_empty_message_done ["doc_images"; "page_002.jpg"]
    = Some (File (Raw (Examples.jpeg 1))) ∧
  node_at Examples.fs_empty_message_done ["doc_images"; "page_003.jpg"]
    = Some (File (Raw [])) ∧
  node_at Examples.fs_empty_message_done ["doc_images"; "page_004.jpg"] = None ∧
  node_at Examples.fs_empty_message_done ["doc_images"; "page_005.jpg"] = None ∧
  node_at Examples.fs_empty_message_done ["doc_images.zip"] = None.
Proof. split_and!; first [run_is | vm_compute; reflexivity]. Qed.

(** The five-page document whose third page is corrupt with a message:
    pages 1, 2, 4 and 5 are written under their own numbers, there is no
    [page_003.jpg], and the failure is reported as page 3. *)
Lemma third_page_corrupt_run :
  Examples.run_five = (Ok true, Examples.fs_five_done, Examples.log_five) ∧
  ((λ i, node_at Examples.fs_five_done ["doc_images"; page_filename i (Some "jpg")])
     <$> [0; 1; 2; 3; 4]%nat)
  = [Some (File (Raw (Examples.jpeg 0))); Some (File (Raw (Examples.jpeg 1))); None;
     Some (File (Raw (Examples.jpeg 3))); Some (File (Raw (Examples.jpeg 4)))] ∧
  page_filename 2 (Some "jpg") = "page_003.jpg" ∧
  MsgPageFailed 3 "corrupt page" ∈ Examples.log_five.
Proof.
  split_and!; first [run_is | vm_compute; reflexivity | idtac].
  apply list_elem_of_In. simpl. tauto.
Qed.

(** * More of the program's behaviour *)

(** ** [convert_page] *)

Lemma lower_ascii_idem (a : ascii) :
  Str.lower_ascii (Str.lower_ascii a) = Str.lower_ascii a.
Proof. destruct a as [[] [] [] [] [] [] [] []]; reflexivity. Qed.

Lemma lower_idem (s : string) : Str.lower (Str.lower s) = Str.lower s.
Proof. induction s as [|a s IH]; simpl; [done|]. by rewrite lower_ascii_idem, IH. Qed.

Section ConvertPage.

Variable fitz_open : option node → string + Document.


(** X2: the image format is read without regard to case, and a format that
    is 'png' makes the quality irrelevant: the page is converted the same
    for every quality value. *)
Theorem image_format_dispatch (fs : FS) (pdf_path : path) (page_num : nat) (dpi : Z)
    (img_format : string) (quality : Z) :
  convert_page fitz_open fs (pdf_path, page_num, dpi, img_format, quality)
    = convert_page fitz_open fs (pdf_path, page_num, dpi, Str.lower img_format, quality) ∧
  (Str.lower img_format = "png" →
   ∀ quality',
     convert_page fitz_open fs (pdf_path, page_num, dpi, img_format, quality)
       = convert_page fitz_open fs (pdf_path, page_num, dpi, img_format, quality')).
Proof.
  unfold convert_page. rewrite lower_idem. split; [done|].
  intros -> quality'. done.
Qed.

End ConvertPage.

Lemma image_format_dispatch_witness :
  Str.lower "PNG" = "png" ∧
  convert_page (Examples.fitz Examples.all_good) (Examples.fs_with Byte.x02)
    (Examples.pdf, 1%nat, 150%Z, "PNG", 85%Z)
  = convert_page (Examples.fitz Examples.all_good) (Examples.fs_with Byte.x02)
      (Examples.pdf, 1%nat, 150%Z, "PNG", 1%Z).
Proof.
  split; [reflexivity|].
  apply (proj2 (image_format_dispatch (Examples.fitz Examples.all_good)
                  (Examples.fs_with Byte.x02) Examples.pdf 1 150 "PNG" 85)).
  reflexivity.
Defined.

(** ** File names *)

(** X3: the names a run gives its files never collide: with one extension,
    different pages get different file names, whatever the number of
    pages, and no page file has the path of the archive. *)
Theorem output_names_distinct (pdf_path output_dir : path) (img_format : string)
    (ext : option string) (a b : nat) :
  (output_dir // page_filename a ext = output_dir // page_filename b ext → a = b) ∧
  page_file output_dir img_format a ≠ zip_path_of pdf_path.
Proof.
  split; [|apply page_file_not_zip].
  intros H. apply PathFacts.join_inj in H as [_ H]. by apply page_filename_inj in H.
Qed.

(** ** The sort *)

Lemma insert_by_page_head (r : Entry) (l : list Entry) :
  Forall (le_page r) l → insert_by_page r l = r :: l.
Proof.
  destruct 1 as [|x l Hx _]; [done|]. simpl. unfold le_page in Hx.
  by destruct (Nat.leb_spec (entry_page r) (entry_page x)); [|lia].
Qed.

Lemma insert_by_page_filter (k : nat) (r : Entry) (l : list Entry) :
  filter (λ x, entry_page x = k) (insert_by_page r l)
  = filter (λ x, entry_page x = k) (r :: l).
Proof.
  induction l as [|x l IH]; [done|]. simpl.
  destruct (Nat.leb_spec (entry_page r) (entry_page x)) as [Hle|Hgt]; [done|].
  rewrite filter_cons, IH, !filter_cons.
  destruct (decide (entry_page x = k)) as [Hx|Hx]; [|done].
  destruct (decide (entry_page r = k)) as [Hr|Hr]; [lia | done].
Qed.

(** X4: the sort by page number rearranges the results without losing or
    adding any, leaves them in non-decreasing page order, keeps entries of
    the same page in the order they had (it is stable), and sorting again
    changes nothing. *)
Theorem sort_by_page_stable (l : list Entry) :
  sort_by_page l ≡ₚ l ∧
  StronglySorted le_page (sort_by_page l) ∧
  (∀ k, filter (λ x, entry_page x = k) (sort_by_page l)
        = filter (λ x, entry_page x = k) l) ∧
  sort_by_page (sort_by_page l) = sort_by_page l.
Proof.
  split_and!.
  - apply SortFacts.sort_by_page_perm.
  - apply SortFacts.sort_by_page_sorted.
  - intros k. induction l as [|r l IH]; [done|]. simpl.
    by rewrite insert_by_page_filter, !filter_cons, IH.
  - pose proof (SortFacts.sort_by_page_sorted l) as Hs.
    induction Hs as [|x l' Hl' IH Hx]; [done|]. simpl.
    rewrite IH. by apply insert_by_page_head.
Qed.

(** ** Runs that stop early *)

Section EarlyEnds.

Variable fitz_open : option node → string + Document.
Variable cpu_count : option Z.
Variable sched : Scheduler.

(** X5: when the source path does not exist, an accepted quality leads to
    the resolution warning if any, the not-found line and exit status 1;
    the file system is left as it was, not even the output directory is
    made. *)
Theorem missing_source_untouched (args : Args) (fs : FS) :
  (1 ≤ quality args ≤ 100)%Z →
  node_at fs (pdf_file args) = None →
  main fitz_open cpu_count sched args fs
    = (Exit 1, fs, dpi_warning (dpi args) ++ [MsgFileNotFound (pdf_file args)]).
Proof.
  intros Hq Hnone. rewrite main_run by done. by rewrite convert_run, Hnone.
Qed.

(** X6: the output directory is made before the document is opened.  When
    the source is there but does not open as a document and the output
    directory is new, the run prints the library's message and returns
    [False], and leaves the empty output directory behind. *)
Theorem unopenable_source_leaves_directory (pdf_path : path)
    (output_dir : option path) (img_format : string) (dpi quality : Z)
    (create_zip : bool) (num_workers : option Z) (fs : FS) (e : string) :
  is_Some (node_at fs pdf_path) →
  fitz_open (node_at fs pdf_path) = inl e →
  let out := output_dir_of pdf_path output_dir in
  node_at fs out = None →
  node_at fs (Path.parent out) = Some Dir →
  convert_pdf_to_images fitz_open cpu_count sched pdf_path output_dir img_format
    dpi quality create_zip num_workers fs
  = (Ok false, <[out := Dir]> fs, [MsgOpenFailed e]).
Proof.
  intros [nd Hnd] Hopen out Hout Hparent.
  rewrite convert_run, Hnd. fold out. cbn zeta. rewrite mkdir_run, Hout, Hparent.
  rewrite PathFacts.node_at_insert_ne, Hnd by (intros E; by rewrite E, Hnd in Hout).
  rewrite Hnd in Hopen. by rewrite Hopen.
Qed.

(** X7: a worker count that is zero or negative is found out only when the
    pool is made.  The document was opened, the output directory made and
    the information lines printed by then (showing the CPU count for a
    count of 0); the run ends with [ValueError] and converts no page:
    nothing but the output directory is added. *)
Theorem worker_count_refused (pdf_path : path) (output_dir : option path)
    (img_format : string) (dpi quality : Z) (create_zip : bool) (w : Z)
    (fs : FS) (doc : Document) :
  is_Some (node_at fs pdf_path) →
  fitz_open (node_at fs pdf_path) = inr doc →
  (w ≤ 0)%Z →
  let out := output_dir_of pdf_path output_dir in
  (node_at fs out = Some Dir ∨
   (node_at fs out = None ∧ node_at fs (Path.parent out) = Some Dir)) →
  ∃ fs',
    convert_pdf_to_images fitz_open cpu_count sched pdf_path output_dir img_format
      dpi quality create_zip (Some w) fs
    = (Raised ValueError, fs',
       info_lines cpu_count pdf_path (num_pages doc) img_format dpi quality (Some w)) ∧
    node_at fs' out = Some Dir ∧
    (∀ p, p ≠ out → node_at fs' p = node_at fs p) ∧
    (w = 0%Z →
     MsgWorkers cpu_count
       ∈ info_lines cpu_count pdf_path (num_pages doc) img_format dpi quality (Some w)).
Proof.
  intros [nd Hnd] Hopen Hw out Hout.
  rewrite convert_run, Hnd. fold out. cbn zeta.
  assert (∃ fs1, mkdir_exist_ok out fs = (Ok tt, fs1, []) ∧
                 node_at fs1 out = Some Dir ∧
                 (∀ p, p ≠ out → node_at fs1 p = node_at fs p))
    as (fs1 & Hmk & Hdir & Hframe).
  { rewrite mkdir_run. destruct Hout as [Hd | [Hn Hp]].
    - rewrite Hd. by exists fs.
    - rewrite Hn, Hp. exists (<[out := Dir]> fs). split_and!; [done | |].
      + apply PathFacts.node_at_insert_eq. intros E. by rewrite E in Hn.
      + intros p Hp'. by apply PathFacts.node_at_insert_ne. }
  rewrite Hmk.
  assert (node_at fs1 pdf_path = Some nd) as Hnd1.
  { rewrite <- Hnd. apply (mkdir_keeps _ _ _ _ _ Hmk). rewrite Hnd. eauto. }
  rewrite Hnd1. rewrite Hnd in Hopen. rewrite Hopen, render_all_run. cbn [pool_workers].
  destruct (Z.leb_spec w 0) as [_|Hpos]; [|lia].
  exists fs1. rewrite app_nil_r. split_and!; [done.. |].
  intros ->. unfold info_lines. rewrite !elem_of_app. do 2 right.
  apply list_elem_of_here.
Qed.

(** X8: the output directory is made without any handler around it.  When
    its path is taken by a file, or is new with a parent that is no
    directory, the run ends with the error of [mkdir] before the document
    is opened: nothing is printed and the file system is as it was. *)
Theorem output_directory_refused (pdf_path : path) (output_dir : option path)
    (img_format : string) (dpi quality : Z) (create_zip : bool)
    (num_workers : option Z) (fs : FS) :
  is_Some (node_at fs pdf_path) →
  let out := output_dir_of pdf_path output_dir in
  ((∃ c, node_at fs out = Some (File c)) ∨
   (node_at fs out = None ∧ node_at fs (Path.parent out) ≠ Some Dir)) →
  ∃ e,
    convert_pdf_to_images fitz_open cpu_count sched pdf_path output_dir img_format
      dpi quality create_zip num_workers fs = (Raised e, fs, []) ∧
    (e = FileExistsError out ∨ e = NotADirectoryError out ∨ e = FileNotFoundError out).
Proof.
  intros [nd Hnd] out Hout.
  rewrite convert_run, Hnd. fold out. cbn zeta. rewrite mkdir_run.
  destruct Hout as [[c Hc] | [Hn Hp]].
  - rewrite Hc. eexists. split; [done | by left].
  - rewrite Hn. destruct (node_at fs (Path.parent out)) as [[|c]|]; [done | |];
      (eexists; split; [done | auto]).
Qed.

End EarlyEnds.

Lemma missing_source_untouched_witness :
  let args := {| pdf_file := ["gone.pdf"]; output := None; format := "jpeg";
                 dpi := 50; quality := 85; no_zip := false; workers := None |} in
  (1 ≤ quality args ≤ 100)%Z ∧
  node_at (Examples.fs_with Byte.x02) (pdf_file args) = None ∧
  main (Examples.fitz Examples.all_good) None Examples.in_order args
    (Examples.fs_with Byte.x02)
  = (Exit 1, Examples.fs_with Byte.x02, [MsgDpiLow; MsgFileNotFound ["gone.pdf"]]).
Proof.
  intros args.
  assert (1 ≤ quality args ≤ 100)%Z as Hq by (simpl; lia).
  assert (node_at (Examples.fs_with Byte.x02) (pdf_file args) = None) as Hn
    by reflexivity.
  split; [exact Hq|]. split; [exact Hn|].
  exact (missing_source_untouched (Examples.fitz Examples.all_good) None
           Examples.in_order args (Examples.fs_with Byte.x02) Hq Hn).
Defined.

Lemma unopenable_source_leaves_directory_witness :
  Examples.fitz Examples.all_good (node_at Examples.fs_not_a_pdf Examples.pdf)
    = inl "cannot open" ∧
  convert_pdf_to_images (Examples.fitz Examples.all_good) None Examples.in_order
    Examples.pdf None "jpeg" 150 85 true None Examples.fs_not_a_pdf
  = (Ok false, <[output_dir_of Examples.pdf None := Dir]> Examples.fs_not_a_pdf,
     [MsgOpenFailed "cannot open"]).
Proof.
  split; [reflexivity|].
  apply (unopenable_source_leaves_directory (Examples.fitz Examples.all_good) None
           Examples.in_order Examples.pdf None "jpeg" 150 85 true None
           Examples.fs_not_a_pdf "cannot open").
  - by eexists.
  - reflexivity.
  - reflexivity.
  - reflexivity.
Defined.

Lemma worker_count_refused_witness :
  (0 ≤ 0)%Z ∧
  ∃ fs',
    convert_pdf_to_images (Examples.fitz Examples.all_good) (Some 8%Z) Examples.in_order
      Examples.pdf None "jpeg" 150 85 true (Some 0%Z) (Examples.fs_with Byte.x02)
    = (Raised ValueError, fs',
       info_lines (Some 8%Z) Examples.pdf 2 "jpeg" 150 85 (Some 0%Z)) ∧
    node_at fs' (output_dir_of Examples.pdf None) = Some Dir.
Proof.
  split; [lia|].
  destruct (worker_count_refused (Examples.fitz Examples.all_good) (Some 8%Z)
              Examples.in_order Examples.pdf None "jpeg" 150 85 true 0
              (Examples.fs_with Byte.x02) (Examples.doc_of 2 Examples.all_good))
    as (fs' & Hrun & Hdir & _).
  - by eexists.
  - reflexivity.
  - lia.
  - right. split; reflexivity.
  - exists fs'. split; [exact Hrun | exact Hdir].
Defined.

Lemma output_directory_refused_witness :
  node_at Examples.fs_output_taken (output_dir_of Examples.pdf None)
    = Some (File (Raw [])) ∧
  ∃ e,
    convert_pdf_to_images (Examples.fitz Examples.all_good) None Examples.in_order
      Examples.pdf None "jpeg" 150 85 true None Examples.fs_output_taken
    = (Raised e, Examples.fs_output_taken, []).
Proof.
  split; [reflexivity|].
  destruct (output_directory_refused (Examples.fitz Examples.all_good) None
              Examples.in_order Examples.pdf None "jpeg" 150 85 true None
              Examples.fs_output_taken) as (e & Hrun & _).
  - by eexists.
  - left. by eexists.
  - exists e. exact Hrun.
Defined.

(** ** What a run may change *)

Lemma only_outputs_changed_refl (out zip : path) (with_zip : bool) (fs : FS) :
  only_outputs_changed out zip with_zip fs fs.
Proof. by intros p. Qed.

Lemma only_outputs_changed_trans (out zip : path) (with_zip : bool) (fs1 fs2 fs3 : FS) :
  only_outputs_changed out zip with_zip fs1 fs2 →
  only_outputs_changed out zip with_zip fs2 fs3 →
  only_outputs_changed out zip with_zip fs1 fs3.
Proof.
  intros H12 H23 p. destruct (H12 p) as (Hd1 & Hs1 & Hf1), (H23 p) as (Hd2 & Hs2 & Hf2).
  split_and!; [auto | auto |]. intros Ho Hz Hp. by rewrite Hf2, Hf1.
Qed.

(** Putting a file or a directory where no directory was. *)
Lemma only_outputs_changed_insert (out zip : path) (with_zip : bool) (fs : FS)
    (q : path) (n : node) :
  q ≠ [] →
  node_at fs q ≠ Some Dir →
  (q = out ∨ (with_zip = true ∧ q = zip) ∨ ∃ i ext, q = out // page_filename i ext) →
  only_outputs_changed out zip with_zip fs (<[q := n]> fs).
Proof.
  intros Hq Hfree Hwhere p. destruct (decide (q = p)) as [<-|Hne].
  - rewrite PathFacts.node_at_insert_eq by done. split_and!; [done | by eauto |].
    intros Ho Hz Hp. destruct Hwhere as [-> | [[Hw ->] | (i & ext & ->)]];
      [done | by destruct (Hz Hw) | by destruct (Hp i ext)].
  - by rewrite PathFacts.node_at_insert_ne.
Qed.

Lemma mkdir_changes (out zip : path) (with_zip : bool) (fs fs' : FS)
    (r : result unit) (l : list Msg) :
  mkdir_exist_ok out fs = (r, fs', l) → only_outputs_changed out zip with_zip fs fs'.
Proof.
  rewrite mkdir_run. intros H.
  destruct (node_at fs out) as [[|c]|] eqn:Eo;
    [injection H as <- <- <-; apply only_outputs_changed_refl.. |].
  destruct (node_at fs (Path.parent out)) as [[|c]|];
    injection H as <- <- <-; try apply only_outputs_changed_refl.
  apply only_outputs_changed_insert; [|by rewrite Eo | by left].
  intros ->. discriminate.
Qed.

Lemma write_pages_changes (out zip : path) (with_zip : bool) (ext : option string)
    (rs : list Entry) (fs fs' : FS) (r : result (list path)) (l : list Msg) :
  write_pages out ext rs fs = (r, fs', l) → only_outputs_changed out zip with_zip fs fs'.
Proof.
  revert fs fs' r l. induction rs as [|r0 rs IH]; intros fs fs' r l H.
  - injection H as <- <- <-. apply only_outputs_changed_refl.
  - rewrite write_pages_cons in H.
    assert (∀ c, node_at fs (file_of out ext r0) ≠ Some Dir →
              only_outputs_changed out zip with_zip fs
                (<[file_of out ext r0 := File c]> fs)) as Hins.
    { intros c Hfree. apply only_outputs_changed_insert;
        [apply PathFacts.join_not_nil | done |].
      right. right. by eexists _, _. }
    destruct (node_at fs (file_of out ext r0)) as [[|c]|] eqn:Ef;
      [injection H as <- <- <-; apply only_outputs_changed_refl | |];
      (destruct (node_at fs out) as [[|c']|];
         [|injection H as <- <- <-; apply only_outputs_changed_refl..];
       destruct (entry_data r0) as [b|];
         [|injection H as <- <- <-; by apply Hins];
       destruct (write_pages _ _ rs _) as [[[s1|e1] fs1] l1] eqn:Ew;
       apply IH in Ew; injection H as <- <- <-;
       (eapply only_outputs_changed_trans; [by apply Hins | exact Ew])).
Qed.

Lemma make_zip_changes (pdf_path out : path) (create_zip : bool)
    (saved_files : list path) (fs fs' : FS) (r : result unit) (l : list Msg) :
  make_zip pdf_path out create_zip saved_files fs = (r, fs', l) →
  only_outputs_changed out (zip_path_of pdf_path) create_zip fs fs'.
Proof.
  rewrite make_zip_run, write_zip_run. intros H.
  destruct create_zip; [|injection H as <- <- <-; apply only_outputs_changed_refl].
  cbn [andb] in H.
  destruct (negb _); [|injection H as <- <- <-; apply only_outputs_changed_refl].
  assert (∀ c, node_at fs (zip_path_of pdf_path) ≠ Some Dir →
            only_outputs_changed out (zip_path_of pdf_path) true fs
              (<[zip_path_of pdf_path := File c]> fs)) as Hins.
  { intros c Hfree. apply only_outputs_changed_insert;
      [apply PathFacts.join_not_nil | done | auto]. }
  destruct (node_at fs (zip_path_of pdf_path)) as [[|c]|] eqn:Ez;
    [injection H as <- <- <-; apply only_outputs_changed_refl | |];
    (destruct (node_at fs (Path.parent (zip_path_of pdf_path))) as [[|c']|];
       cbn in H;
       [|injection H as <- <- <-; apply only_outputs_changed_refl..];
     destruct (zip_write_all _ _).2; injection H as <- <- <-; by apply Hins).
Qed.

Section Frame.

Variable fitz_open : option node → string + Document.
Variable cpu_count : option Z.
Variable sched : Scheduler.

(** X9: however a run ends, with [True], [False] or an exception, it
    removes nothing and replaces no directory, and the only paths it can
    have changed are the output directory, [page_...] files directly in
    it and, with archiving on, the archive beside the source.  The source
    document and every other file are as they were. *)
Theorem run_changes_only_its_outputs (pdf_path : path) (output_dir : option path)
    (img_format : string) (dpi quality : Z) (create_zip : bool)
    (num_workers : option Z) (fs : FS) (p : path) :
  let run := convert_pdf_to_images fitz_open cpu_count sched pdf_path output_dir
               img_format dpi quality create_zip num_workers fs in
  let out := output_dir_of pdf_path output_dir in
  (node_at fs p = Some Dir → node_at run.1.2 p = Some Dir) ∧
  (is_Some (node_at fs p) → is_Some (node_at run.1.2 p)) ∧
  (p ≠ out → (create_zip = true → p ≠ zip_path_of pdf_path) →
   (∀ i ext, p ≠ out // page_filename i ext) →
   node_at run.1.2 p = node_at fs p).
Proof.
  intros run out.
  cut (only_outputs_changed out (zip_path_of pdf_path) create_zip fs run.1.2);
    [intros H; apply H|].
  unfold run. rewrite convert_run. fold out. cbn zeta.
  destruct (node_at fs pdf_path) as [nd|]; [|apply only_outputs_changed_refl].
  destruct (mkdir_exist_ok out fs) as [[[[]|e] fs1] l1] eqn:Emk;
    pose proof (mkdir_changes out (zip_path_of pdf_path) create_zip _ _ _ _ Emk) as H1;
    [|done].
  destruct (fitz_open (node_at fs1 pdf_path)) as [e|doc]; [done|].
  rewrite render_all_run.
  set (results := sort_by_page _).
  assert (∀ r fs3 l3, save_images out results fs1 = (r, fs3, l3) →
            only_outputs_changed out (zip_path_of pdf_path) create_zip fs fs3) as Hsave.
  { intros r fs3 l3 Hs. eapply only_outputs_changed_trans; [exact H1|].
    by eapply write_pages_changes. }
  destruct (pool_workers cpu_count num_workers) as [w|];
    [destruct (w <=? 0)%Z; [done|]; destruct (pool_limit sched w); [done|] |];
    (destruct (save_images out results fs1) as [[[saved|e] fs3] l3] eqn:Es;
       [|by eapply Hsave];
     destruct (make_zip pdf_path out create_zip saved fs3) as [[rz fs4] l4] eqn:Ez;
     cbn;
     (eapply only_outputs_changed_trans; [by eapply Hsave|]);
     by eapply make_zip_changes).
Qed.

End Frame.

(** ** Scheduling, the log and repeated runs *)

Section Runs.

Variable fitz_open : option node → string + Document.
Variable cpu_count : option Z.

Local Abbreviation convert := (convert_pdf_to_images fitz_open cpu_count).

(** X10: what a run returns and the file system it leaves do not depend on
    the order in which the pool completes the pages, nor on the number of
    workers as long as the pool accepts it; with the same worker count the
    two logs hold the same lines, the failure lines possibly in another
    order. *)
Theorem run_independent_of_scheduling (s1 s2 : Scheduler) (pdf_path : path)
    (output_dir : option path) (img_format : string) (dpi quality : Z)
    (create_zip : bool) (w1 w2 : option Z) (fs : FS) :
  pool_accepts s1 (pool_workers cpu_count w1) →
  pool_accepts s2 (pool_workers cpu_count w2) →
  let r1 := convert s1 pdf_path output_dir img_format dpi quality create_zip w1 fs in
  let r2 := convert s2 pdf_path output_dir img_format dpi quality create_zip w2 fs in
  r1.1 = r2.1 ∧ (w1 = w2 → r1.2 ≡ₚ r2.2).
Proof.
  intros Hp1 Hp2 r1 r2. unfold r1, r2. rewrite !convert_run. cbn zeta.
  destruct (node_at fs pdf_path) as [nd|]; [|done].
  destruct (mkdir_exist_ok _ fs) as [[[[]|e] fs1] l1]; [|done].
  destruct (fitz_open (node_at fs1 pdf_path)) as [e|doc] eqn:Eopen; [done|].
  destruct (render_all_doc fitz_open s1 _ fs1 doc pdf_path dpi img_format quality
              Eopen Hp1) as (printed1 & -> & Hpr1).
  destruct (render_all_doc fitz_open s2 _ fs1 doc pdf_path dpi img_format quality
              Eopen Hp2) as (printed2 & -> & Hpr2).
  destruct (save_images _ _ fs1) as [[[saved|e] fs3] l3].
  - destruct (make_zip _ _ _ _ fs3) as [[rz fs4] l4]. cbn.
    split; [done|]. intros ->. by rewrite Hpr1, Hpr2.
  - cbn. split; [done|]. intros ->. by rewrite Hpr1, Hpr2.
Qed.

Variable sched : Scheduler.

(** X11: the log of a run that returns [True], for a format name of ASCII
    characters, reads in this order: the information lines; one failure
    line for each page that failed, these lines in the order in which the
    pool completed the pages; the line with the number of pages converted;
    the line with the output directory; and, when an archive was made, the
    three archive lines.  The pool completes every page once.  The number
    converted is the number of pages that rendered, and together with the
    failure lines it makes up the page count. *)
Theorem log_of_successful_run (pdf_path : path) (output_dir : option path)
    (img_format : string) (dpi quality : Z) (create_zip : bool)
    (num_workers : option Z) (fs fs' : FS) (log : list Msg) :
  Str.is_ascii img_format = true →
  convert sched pdf_path output_dir img_format dpi quality create_zip num_workers fs
    = (Ok true, fs', log) →
  let out := output_dir_of pdf_path output_dir in
  ∃ doc,
    let pages := rendered doc dpi img_format quality in
    let completed :=
      completion_order sched (pool_workers cpu_count num_workers) pdf_path
        (num_pages doc) dpi img_format quality in
    let printed := omap (failure_line doc dpi img_format quality) completed in
    fitz_open (node_at fs pdf_path) = inr doc ∧
    completed ≡ₚ seq 0 (num_pages doc) ∧
    log = info_lines cpu_count pdf_path (num_pages doc) img_format dpi quality num_workers
          ++ printed
          ++ [MsgConverted (length pages); MsgSavedTo out]
          ++ (if create_zip && negb (bool_decide (pages = []))
              then [MsgZipStart; MsgZipDone (zip_path_of pdf_path); MsgKeepDir out]
              else []) ∧
    (length pages + length printed = num_pages doc)%nat.
Proof.
  intros _ H out.
  pose proof (convert_archive_stage _ _ _ _ _ _ _ _ _ _ _ _ _ _ H (or_introl eq_refl))
    as (doc & fs1 & fs3 & printed & rz & lz & Hpdf & Hopen & Hmk & Hpool & Hprinted
        & Htruthy & Hw & Hz & Hrz & ->).
  destruct rz as [[]|e]; [clear Hrz | done].
  exists doc. cbn zeta. fold out in Hz |- *. rewrite <- Hprinted.
  set (pages := rendered doc dpi img_format quality) in *.
  split_and!; [done | apply completion_order_perm | |].
  - do 2 f_equal. cbn [app]. do 2 f_equal.
    rewrite make_zip_run in Hz.
    assert (bool_decide ((λ p, page_file out img_format p.1) <$> pages = [])
            = bool_decide (pages = [])) as Hb.
    { apply bool_decide_ext. by destruct pages. }
    rewrite Hb in Hz. destruct (create_zip && _); [|by injection Hz].
    destruct (write_zip _ _ fs3) as [[[[]|e] fs0] l0] eqn:Ew; [|done].
    apply write_zip_silent in Ew as ->. by injection Hz.
  - pose proof (kept_or_reported doc dpi img_format quality (seq 0 (num_pages doc))) as Hlen.
    rewrite (kept_truthy _ _ _ _ Htruthy), length_fmap, length_seq in Hlen.
    by rewrite Hprinted, failure_lines_perm.
Qed.

(** X12: a run that returns [True] changes nothing but what it is for: a
    path whose content differs afterwards is the output directory, which
    was not there before, or the file of a page that rendered, or the
    archive in a run that made one.  Older files in the output directory,
    also those of pages that failed this time, are left as they are. *)
Theorem successful_run_changes_exactly (pdf_path : path) (output_dir : option path)
    (img_format : string) (dpi quality : Z) (create_zip : bool)
    (num_workers : option Z) (fs fs' : FS) (log : list Msg) :
  convert sched pdf_path output_dir img_format dpi quality create_zip num_workers fs
    = (Ok true, fs', log) →
  let out := output_dir_of pdf_path output_dir in
  ∃ doc,
    let pages := rendered doc dpi img_format quality in
    fitz_open (node_at fs pdf_path) = inr doc ∧
    ∀ p, node_at fs' p ≠ node_at fs p →
      (p = out ∧ node_at fs p = None) ∨
      (p = zip_path_of pdf_path ∧ create_zip = true ∧ pages ≠ []) ∨
      (∃ i d, (i, d) ∈ pages ∧ p = page_file out img_format i).
Proof.
  intros H out.
  pose proof (convert_archive_stage _ _ _ _ _ _ _ _ _ _ _ _ _ _ H (or_introl eq_refl))
    as (doc0 & fs1 & _ & _ & _ & _ & _ & Hopen0 & Hmk & _).
  apply convert_true_state in H
    as (doc & _ & Hopen & _ & Hdir & _ & _ & _ & Hframe).
  fold out in Hmk, Hdir, Hframe. exists doc. cbn zeta.
  set (pages := rendered doc dpi img_format quality) in *.
  split; [done|]. intros p Hp.
  destruct (decide (p = out)) as [->|Hout].
  { left. split; [done|].
    apply mkdir_ok_inv in Hmk as (_ & Hdir1 & [-> | [Hnone _]]); [|done].
    destruct Hp. by rewrite Hdir, Hdir1. }
  destruct (decide (p ∈ (λ q, page_file out img_format q.1) <$> pages)) as [Hin|Hnin].
  { right. right. apply list_elem_of_fmap in Hin as ([i d] & -> & Hin). by exists i, d. }
  destruct (decide (p = zip_path_of pdf_path)) as [->|Hzip].
  - right. left. split; [done|].
    destruct (create_zip && negb (bool_decide (pages = []))) eqn:Earch.
    + apply andb_true_iff in Earch as [-> Hne].
      apply negb_true_iff, bool_decide_eq_false in Hne. done.
    + destruct Hp. apply Hframe; [done | intros Hx; congruence |].
      intros i d Hin Heq. apply Hnin. rewrite Heq.
      by apply (list_elem_of_fmap_2 (λ q, page_file out img_format q.1) _ (i, d)).
  - destruct Hp. apply Hframe; [done | done |].
    intros i d Hin ->. apply Hnin.
    by apply (list_elem_of_fmap_2 (λ q, page_file out img_format q.1) _ (i, d)).
Qed.

(** X13: running the conversion again is harmless.  When a run returned
    [True] without overwriting its own source, a second run with the same
    arguments that returns [True] leaves the file system exactly as the
    first run left it: the same page files with the same bytes and the
    same archive. *)
Theorem second_run_changes_nothing (pdf_path : path) (output_dir : option path)
    (img_format : string) (dpi quality : Z) (create_zip : bool)
    (num_workers : option Z) (fs fs1 fs2 : FS) (log1 log2 : list Msg) :
  convert sched pdf_path output_dir img_format dpi quality create_zip num_workers fs
    = (Ok true, fs1, log1) →
  convert sched pdf_path output_dir img_format dpi quality create_zip num_workers fs1
    = (Ok true, fs2, log2) →
  node_at fs1 pdf_path = node_at fs pdf_path →
  ∀ p, node_at fs2 p = node_at fs1 p.
Proof.
  intros H1 H2 Hsame p.
  apply convert_true_state in H1
    as (doc & _ & Hopen1 & _ & Hdir1 & Hfiles1 & _ & Hzip1 & _).
  apply convert_true_state in H2
    as (doc2 & _ & Hopen2 & _ & Hdir2 & Hfiles2 & _ & Hzip2 & Hframe2).
  rewrite Hsame in Hopen2. assert (doc2 = doc) as -> by congruence.
  set (out := output_dir_of pdf_path output_dir) in *.
  set (pages := rendered doc dpi img_format quality) in *.
  destruct (decide (p = out)) as [->|Hout]; [by rewrite Hdir1, Hdir2|].
  destruct (decide (p ∈ (λ q, page_file out img_format q.1) <$> pages)) as [Hin|Hnin].
  { apply list_elem_of_fmap in Hin as ([i d] & -> & Hin).
    etrans; [apply (Hfiles2 i d Hin) | symmetry; apply (Hfiles1 i d Hin)]. }
  assert (∀ i d, (i, d) ∈ pages → p ≠ page_file out img_format i) as Hnot.
  { intros i d Hin ->. apply Hnin.
    by apply (list_elem_of_fmap_2 (λ q, page_file out img_format q.1) _ (i, d)). }
  destruct (decide (p = zip_path_of pdf_path)) as [->|Hzip]; [|by apply Hframe2].
  destruct (create_zip && negb (bool_decide (pages = []))) eqn:Earch.
  - by rewrite Hzip1, Hzip2.
  - apply Hframe2; [done | intros Hx; congruence | done].
Qed.

(** X14: a run in which no page renders still succeeds.  When the document
    opens and every page fails with a message (in particular when there is
    no page), with an accepted quality and worker count and an output
    directory that is there or can be made, the process exits with status
    0: it reports 0 pages converted, makes no archive although archiving
    may be on, and adds nothing but the output directory. *)
Theorem nothing_converted_still_succeeds (args : Args) (fs : FS) (doc : Document) :
  (1 ≤ quality args ≤ 100)%Z →
  is_Some (node_at fs (pdf_file args)) →
  fitz_open (node_at fs (pdf_file args)) = inr doc →
  (∀ i, (i < num_pages doc)%nat →
     ∃ e, render doc i (dpi args) (encoding_of (format args) (quality args)) = inl e ∧
          Str.truthy e = true) →
  pool_accepts sched (pool_workers cpu_count (workers args)) →
  let out := output_dir_of (pdf_file args) (output args) in
  (node_at fs out = Some Dir ∨
   (node_at fs out = None ∧ node_at fs (Path.parent out) = Some Dir)) →
  ∃ fs' log,
    main fitz_open cpu_count sched args fs = (Exit 0, fs', log) ∧
    node_at fs' out = Some Dir ∧
    (∀ p, p ≠ out → node_at fs' p = node_at fs p) ∧
    MsgConverted 0 ∈ log ∧
    (MsgZipStart ∉ log) ∧
    (∀ i, (i < num_pages doc)%nat → ∃ e, MsgPageFailed (i + 1) e ∈ log).
Proof.
  intros Hq Hpdf Hopen Hfail Hpool out Hout.
  rewrite main_run by done. rewrite convert_run. fold out.
  destruct Hpdf as [nd Hnd]. rewrite Hnd. cbn zeta.
  assert (∃ fs1, mkdir_exist_ok out fs = (Ok tt, fs1, []) ∧
                 node_at fs1 out = Some Dir ∧
                 (∀ p, p ≠ out → node_at fs1 p = node_at fs p))
    as (fs1 & Hmk & Hdir & Hframe).
  { rewrite mkdir_run. destruct Hout as [Hd | [Hn Hp]].
    - rewrite Hd. by exists fs.
    - rewrite Hn, Hp. exists (<[out := Dir]> fs). split_and!; [done | |].
      + apply PathFacts.node_at_insert_eq. intros E. by rewrite E in Hn.
      + intros p Hp'. by apply PathFacts.node_at_insert_ne. }
  rewrite Hmk.
  assert (node_at fs1 (pdf_file args) = Some nd) as Hnd1.
  { rewrite <- Hnd. apply (mkdir_keeps _ _ _ _ _ Hmk). rewrite Hnd. eauto. }
  rewrite Hnd1. rewrite Hnd in Hopen. rewrite Hopen.
  destruct (render_all_doc fitz_open sched (pool_workers cpu_count (workers args)) fs1 doc
              (pdf_file args) (dpi args) (format args) (quality args))
    as (printed & Hrun & Hprinted); [by rewrite Hnd1 | done |].
  assert (omap (kept doc (dpi args) (format args) (quality args)) (seq 0 (num_pages doc))
          = []) as Hnone.
  { destruct (omap (kept _ _ _ _) _) as [|r l] eqn:E; [done|].
    assert (r ∈ omap (kept doc (dpi args) (format args) (quality args))
                  (seq 0 (num_pages doc))) as Hr by (rewrite E; apply list_elem_of_here).
    apply list_elem_of_omap in Hr as (j & Hj & Hr). apply elem_of_seq in Hj.
    destruct (Hfail j) as (e & He & Ht); [lia|].
    unfold kept in Hr. by rewrite He, Ht in Hr. }
  rewrite Hrun, Hnone. unfold save_images. cbn [write_pages].
  change ((mret [] : M (list path)) fs1) with (Ok (@nil path), fs1, @nil Msg).
  cbn iota beta. rewrite make_zip_skip by (by right).
  eexists _, _. split; [reflexivity|]. cbn [app length].
  split_and!; [done | done | | |].
  - rewrite !elem_of_app. right. right. right. apply list_elem_of_here.
  - intros H. apply elem_of_app in H as [H | H]; [by apply dpi_warning_no_zip in H|].
    apply elem_of_app in H as [H | H]; [by apply info_lines_no_zip in H|].
    apply elem_of_app in H as [H | H].
    { rewrite Hprinted in H. by apply failure_lines_no_zip in H. }
    by repeat (apply elem_of_cons in H as [? | H]; [done|]); apply elem_of_nil in H.
  - intros i Hi. destruct (Hfail i Hi) as (e & He & Ht). exists e.
    rewrite !elem_of_app. right. right. left.
    rewrite Hprinted. apply list_elem_of_omap. exists i.
    split; [apply elem_of_seq; lia|]. unfold failure_line. by rewrite He, Ht.
Qed.

End Runs.

Lemma run_independent_of_scheduling_witness :
  pool_accepts Examples.in_order (pool_workers None (Some 1%Z)) ∧
  pool_accepts Examples.reversed (pool_workers None (Some 4%Z)) ∧
  (convert_pdf_to_images (Examples.fitz (Examples.only_bad 2 "corrupt page")) None
     Examples.in_order Examples.pdf None "jpeg" 150 85 true (Some 1%Z)
     (Examples.fs_with Byte.x05)).1
  = (convert_pdf_to_images (Examples.fitz (Examples.only_bad 2 "corrupt page")) None
       Examples.reversed Examples.pdf None "jpeg" 150 85 true (Some 4%Z)
       (Examples.fs_with Byte.x05)).1.
Proof.
  assert (pool_accepts Examples.in_order (pool_workers None (Some 1%Z))) as H1
    by (split; [lia | reflexivity]).
  assert (pool_accepts Examples.reversed (pool_workers None (Some 4%Z))) as H4
    by (split; [lia | reflexivity]).
  split; [exact H1|]. split; [exact H4|].
  exact (proj1 (run_independent_of_scheduling
                  (Examples.fitz (Examples.only_bad 2 "corrupt page")) None
                  Examples.in_order Examples.reversed Examples.pdf None "jpeg" 150 85
                  true (Some 1%Z) (Some 4%Z) (Examples.fs_with Byte.x05) H1 H4)).
Defined.

(** The pool completes the five pages in reverse, and the one failure line
    stands between the information lines and the count. *)
Lemma log_of_successful_run_witness :
  Str.is_ascii "jpeg" = true ∧
  Examples.run_five = (Ok true, Examples.fs_five_done, Examples.log_five) ∧
  completion_order Examples.reversed (pool_workers None (Some 4%Z)) Examples.pdf 5 150
    "jpeg" 85 = [4; 3; 2; 1; 0]%nat ∧
  ∃ doc : Document,
    Examples.fitz (Examples.only_bad 2 "corrupt page")
      (node_at (Examples.fs_with Byte.x05) Examples.pdf) = inr doc ∧
    (length (rendered doc 150 "jpeg" 85)
     + length (omap (failure_line doc 150 "jpeg" 85)
                 (completion_order Examples.reversed (pool_workers None (Some 4%Z))
                    Examples.pdf (num_pages doc) 150 "jpeg" 85))
     = num_pages doc)%nat.
Proof.
  assert (Examples.run_five = (Ok true, Examples.fs_five_done, Examples.log_five)) as H
    by run_is.
  split; [reflexivity|]. split; [exact H|]. split; [reflexivity|].
  destruct (log_of_successful_run _ _ _ _ _ "jpeg" _ _ _ _ _ _ _ eq_refl H)
    as (doc & Hdoc & _ & _ & Hlen).
  exists doc. split; [exact Hdoc | exact Hlen].
Defined.

Lemma successful_run_changes_exactly_witness :
  Examples.run_five = (Ok true, Examples.fs_five_done, Examples.log_five) ∧
  ∃ doc,
    Examples.fitz (Examples.only_bad 2 "corrupt page")
      (node_at (Examples.fs_with Byte.x05) Examples.pdf) = inr doc.
Proof.
  assert (Examples.run_five = (Ok true, Examples.fs_five_done, Examples.log_five)) as H
    by run_is.
  split; [exact H|].
  destruct (successful_run_changes_exactly _ _ _ _ _ _ _ _ _ _ _ _ _ H)
    as (doc & Hdoc & _).
  exists doc. exact Hdoc.
Defined.

Lemma second_run_changes_nothing_witness :
  Examples.run_five = (Ok true, Examples.fs_five_done, Examples.log_five) ∧
  Examples.run_five_again = (Ok true, Examples.fs_five_done, Examples.log_five) ∧
  node_at Examples.fs_five_done Examples.pdf
    = node_at (Examples.fs_with Byte.x05) Examples.pdf ∧
  ∀ p, node_at Examples.fs_five_done p = node_at Examples.fs_five_done p.
Proof.
  assert (Examples.run_five = (Ok true, Examples.fs_five_done, Examples.log_five)) as H1
    by run_is.
  assert (Examples.run_five_again = (Ok true, Examples.fs_five_done, Examples.log_five))
    as H2 by run_is.
  assert (node_at Examples.fs_five_done Examples.pdf
          = node_at (Examples.fs_with Byte.x05) Examples.pdf) as H3
    by (vm_compute; reflexivity).
  split; [exact H1|]. split; [exact H2|]. split; [exact H3|].
  exact (second_run_changes_nothing _ _ _ _ _ _ _ _ _ _ _ _ _ _ _ H1 H2 H3).
Defined.

Lemma nothing_converted_still_succeeds_witness :
  let fs := Examples.fs_with Byte.x02 in
  let doc := Examples.doc_of 2 Examples.all_bad in
  (1 ≤ quality Examples.args_default ≤ 100)%Z ∧
  Examples.fitz Examples.all_bad (node_at fs Examples.pdf) = inr doc ∧
  ∃ fs' log,
    main (Examples.fitz Examples.all_bad) None Examples.in_order
      Examples.args_default fs = (Exit 0, fs', log) ∧
    MsgConverted 0 ∈ log.
Proof.
  intros fs doc. split; [simpl; lia|]. split; [reflexivity|].
  destruct (nothing_converted_still_succeeds (Examples.fitz Examples.all_bad) None
              Examples.in_order Examples.args_default fs doc)
    as (fs' & log & Hrun & _ & _ & Hcount & _).
  - simpl. lia.
  - by eexists.
  - reflexivity.
  - intros i _. exists "corrupt page". split; reflexivity.
  - split; [lia | reflexivity].
  - right. split; reflexivity.
  - exists fs', log. split; [exact Hrun | exact Hcount].
Defined.
